(** * SlipDayTracker: CountSlips.py, identity resolution and reconciliation

    A shallow embedding of the core of [CountSlips.py] (attendance
    extraction, key derivation, persisted state, reconciliation and slip
    accounting), and the properties of its specification proved or refuted
    on it.

    Conventions of the embedding.
    - Python [int] is [Z]; [//] by the positive constant 5 is [Z.div]
      (both round towards minus infinity).
    - Python [str] is [string]; a character is a code point below 256.
      [strip], [split], [lower] and the comparison of strings follow
      Python on that range.
    - A [dict] that the code only reads with [get] and writes with
      [d[k] = v] is a [gmap].  The dict [SaveState.students] is iterated
      ([values()], [items()]), so it keeps Python's insertion order: it is
      an association list with unique keys ([odict]).
    - A [set[str]] is a [gset string]. *)

From Stdlib Require Import ZArith String Ascii List Lia.
From Stdlib Require Import DecimalString.
From Stdlib Require OrderedTypeEx.
From stdpp Require Import gmap strings list sorting.

Set Warnings "-register-all".

Local Open Scope string_scope.
Local Open Scope Z_scope.

(** ** Python strings *)

Module PyStr.

(** [str.isspace] on one character (code points 0..255). *)
Definition is_space (c : ascii) : bool :=
  let n := nat_of_ascii c in
  ((9 <=? n) && (n <=? 13) || (28 <=? n) && (n <=? 32)
   || (n =? 133) || (n =? 160))%nat.

Fixpoint lstrip (s : string) : string :=
  match s with
  | EmptyString => EmptyString
  | String c s' => if is_space c then lstrip s' else s
  end.

Fixpoint rstrip (s : string) : string :=
  match s with
  | EmptyString => EmptyString
  | String c s' =>
      match rstrip s' with
      | EmptyString => if is_space c then EmptyString else String c EmptyString
      | r => String c r
      end
  end.

(** [s.strip()] *)
Definition strip (s : string) : string := rstrip (lstrip s).

(** [str.lower] on one character (code points 0..255). *)
Definition lower_char (c : ascii) : ascii :=
  let n := nat_of_ascii c in
  if ((65 <=? n) && (n <=? 90)
      || (192 <=? n) && (n <=? 222) && negb (n =? 215))%nat
  then ascii_of_nat (n + 32) else c.

(** [s.lower()] *)
Fixpoint lower (s : string) : string :=
  match s with
  | EmptyString => EmptyString
  | String c s' => String (lower_char c) (lower s')
  end.

(** [str(n)] for an [int]. *)
Definition of_int (n : Z) : string := NilZero.string_of_int (Z.to_int n).

(** Truth value of a string: [bool(s)]. *)
Definition nonempty (s : string) : bool :=
  match s with EmptyString => false | _ => true end.

(** [c in s] for a single character [c]. *)
Fixpoint contains (c : ascii) (s : string) : bool :=
  match s with
  | EmptyString => false
  | String c' s' => if decide (c' = c) then true else contains c s'
  end.

(** [s.split(c, 1)] when [c] occurs in [s]: the text before the first
    [c] and the text after it. *)
Fixpoint split_once (c : ascii) (s : string) : option (string * string) :=
  match s with
  | EmptyString => None
  | String c' s' =>
      if decide (c' = c) then Some (EmptyString, s')
      else match split_once c s' with
           | Some (a, b) => Some (String c' a, b)
           | None => None
           end
  end.

(** [s.split()]: the maximal runs of characters that are not spaces. *)
Fixpoint split (s : string) : list string :=
  match s with
  | EmptyString => []
  | String c s' =>
      if is_space c then split s'
      else match s' with
           | EmptyString => [String c EmptyString]
           | String c' _ =>
               if is_space c' then String c EmptyString :: split s'
               else match split s' with
                    | w :: ws => String c w :: ws
                    | [] => [String c EmptyString]
                    end
           end
  end.

(** [sep.join(l)] *)
Fixpoint join (sep : string) (l : list string) : string :=
  match l with
  | [] => EmptyString
  | [w] => w
  | w :: l' => w +:+ sep +:+ join sep l'
  end.

(** [s[:-2]] when [s.endswith(".0")]. *)
Fixpoint chop_dot_zero (s : string) : option string :=
  if String.eqb s ".0" then Some EmptyString
  else match s with
       | EmptyString => None
       | String c s' => String c <$> chop_dot_zero s'
       end.

(** [str.isdigit] on one character (code points 0..255): the decimal
    digits and the superscripts 1, 2 and 3. *)
Definition isdigit_char (c : ascii) : bool :=
  let n := nat_of_ascii c in
  ((48 <=? n) && (n <=? 57) || (n =? 178) || (n =? 179) || (n =? 185))%nat.

Fixpoint all_chars (p : ascii → bool) (s : string) : bool :=
  match s with
  | EmptyString => true
  | String c s' => p c && all_chars p s'
  end.

(** [s.isdigit()] *)
Definition isdigit (s : string) : bool := nonempty s && all_chars isdigit_char s.

(** [\d] of the [re] module on one character (code points 0..255). *)
Definition is_decimal (c : ascii) : bool :=
  let n := nat_of_ascii c in ((48 <=? n) && (n <=? 57))%nat.

End PyStr.

(** ** Insertion-ordered dictionaries *)

Section odict.
Context {V : Type}.

(** [d.get(k)] *)
Fixpoint od_get (d : list (string * V)) (k : string) : option V :=
  match d with
  | [] => None
  | (k', v) :: d' => if decide (k' = k) then Some v else od_get d' k
  end.

(** [d[k] = v]: an existing key keeps its position, a new one goes last. *)
Fixpoint od_set (d : list (string * V)) (k : string) (v : V) : list (string * V) :=
  match d with
  | [] => [(k, v)]
  | (k', v') :: d' =>
      if decide (k' = k) then (k', v) :: d' else (k', v') :: od_set d' k v
  end.

(** [d.values()] *)
Definition od_values (d : list (string * V)) : list V := d.*2.

(** [d.keys()] *)
Definition od_keys (d : list (string * V)) : list string := d.*1.

(** The dict after a loop [for k in l: d[k] = f(k)]. *)
Definition od_fill (f : string → V) (l : list string)
    (d : list (string * V)) : list (string * V) :=
  foldl (λ d k, od_set d k (f k)) d l.

End odict.

Abbreviation odict V := (list (string * V)).

(** ** Data models *)

Record StudentState := mkStudentState {
  key : string;
  name : string;
  student_id : string;
  tracked : bool;
  used : Z;
  notes : string;
  dropped : bool;
  attendance_confirmed : Z;
  earned : Z
}.

Global Instance StudentState_eq_dec : EqDecision StudentState.
Proof. solve_decision. Defined.

(** The [available] property. *)
Definition available (st : StudentState) : Z := Z.max 0 (earned st - used st).

Record SaveState := mkSaveState {
  roster_keys_in_order : list string;
  students : odict StudentState;
  last_csv_name : string
}.

Definition set_used (st : StudentState) (u : Z) : StudentState :=
  mkStudentState (key st) (name st) (student_id st) (tracked st) u
    (notes st) (dropped st) (attendance_confirmed st) (earned st).

(** ** Slip calculation *)

Definition ATTENDANCES_PER_SLIP : Z := 5.

Definition compute_earned (attendance_confirmed : Z) : Z :=
  attendance_confirmed / ATTENDANCES_PER_SLIP.

(** ** Reconciliation *)

(** One turn of the loop that indexes the prior records by id and name. *)
Definition index_step
    (acc : gmap string StudentState * gmap string (list StudentState))
    (pst : StudentState)
  : gmap string StudentState * gmap string (list StudentState) :=
  let '(prior_by_sid, prior_by_name) := acc in
  let sid := PyStr.strip (student_id pst) in
  (if PyStr.nonempty sid then <[sid := pst]> prior_by_sid else prior_by_sid,
   <[name pst := (default [] (prior_by_name !! name pst) ++ [pst])%list]>
     prior_by_name).

(** The two indexes over the prior records, built in the order of
    [prior_students.values()]. *)
Definition index_prior (prior_students : odict StudentState)
  : gmap string StudentState * gmap string (list StudentState) :=
  foldl index_step (∅, ∅) (od_values prior_students).

(** The matching chain of the loop body. *)
Definition find_prev (prior_students : odict StudentState)
    (prior_by_sid : gmap string StudentState)
    (prior_by_name : gmap string (list StudentState))
    (key name sid : string) : option StudentState :=
  let prev := od_get prior_students key in
  let prev :=
    match prev with
    | None => if PyStr.nonempty sid then prior_by_sid !! sid else prev
    | Some _ => prev
    end in
  match prev with
  | None =>
      if PyStr.nonempty name then
        match default [] (prior_by_name !! name) with
        | [m] => Some m
        | _ => prev
        end
      else prev
  | Some _ => prev
  end.

(** The record built for one roster key, given the matched prior record. *)
Definition build_student (attendance_confirmed : gmap string Z)
    (selected_tracked : option (gset string))
    (key name sid : string) (prev : option StudentState) : StudentState :=
  let tracked := match prev with Some p => tracked p | None => false end in
  let used := match prev with Some p => used p | None => 0 end in
  let notes := match prev with Some p => notes p | None => "" end in
  let dropped := match prev with Some p => dropped p | None => false end in
  let tracked :=
    match selected_tracked with
    | Some sel => bool_decide (key ∈ sel)
    | None => tracked
    end in
  let att := default 0 (attendance_confirmed !! key) in
  let earned := compute_earned att in
  let used := if decide (used > earned) then earned else used in
  mkStudentState key name sid tracked used notes dropped att earned.

(** [prior.students if prior else {}] *)
Definition students_of (prior : option SaveState) : odict StudentState :=
  match prior with Some p => students p | None => [] end.

Definition meta_field (meta : option (gmap string string)) (f : string) : string :=
  match meta with
  | Some m => default "" (m !! f)
  | None => ""
  end.

Definition reconcile_student (attendance_confirmed : gmap string Z)
    (student_meta : gmap string (gmap string string))
    (prior_students : odict StudentState)
    (prior_by_sid : gmap string StudentState)
    (prior_by_name : gmap string (list StudentState))
    (selected_tracked : option (gset string)) (key : string) : StudentState :=
  let meta := student_meta !! key in
  let name := meta_field meta "name" in
  let sid := meta_field meta "student_id" in
  build_student attendance_confirmed selected_tracked key name sid
    (find_prev prior_students prior_by_sid prior_by_name key name sid).

Definition reconcile_state_with_csv (roster_keys_in_order : list string)
    (attendance_confirmed : gmap string Z)
    (student_meta : gmap string (gmap string string))
    (prior : option SaveState) (selected_tracked : option (gset string))
    (csv_name : string) : SaveState :=
  let prior_students := students_of prior in
  let '(prior_by_sid, prior_by_name) := index_prior prior_students in
  mkSaveState roster_keys_in_order
    (foldl (λ d key,
              od_set d key
                (reconcile_student attendance_confirmed student_meta
                   prior_students prior_by_sid prior_by_name
                   selected_tracked key))
           [] roster_keys_in_order)
    csv_name.

(** ** Slip accounting in the table ([do_use]) *)

Inductive message :=
| ShowInfoDropped
| ShowWarningNotEnough (available : Z).

(** [do_use(n)] on the selected record: the record afterwards and the
    message box shown, if any. *)
Definition do_use (sel : option StudentState) (n : Z)
  : option StudentState * option message :=
  match sel with
  | None => (None, None)
  | Some st =>
      if dropped st then (Some st, Some ShowInfoDropped)
      else if decide (available st < n)
           then (Some st, Some (ShowWarningNotEnough (available st)))
           else (Some (set_used st (used st + n)), None)
  end.

(** ** Save / load

    The save file holds [json.dumps(payload)] and is read back with
    [json.loads]; the embedding keeps the parsed value itself.  Floats are
    left out of [jvalue]. *)

Inductive jvalue :=
| JNull
| JBool (b : bool)
| JInt (n : Z)
| JStr (s : string)
| JArr (l : list jvalue)
| JObj (o : list (string * jvalue)).

(** What is found at [save_path]. *)
Inductive save_file :=
| NoFile
| BadText
| JsonText (data : jvalue).

(** The outcome of a step of [load_save]: a value, an exception (which
    [load_save] turns into [SystemExit]), or a Python behaviour that this
    embedding does not describe ([str] of a list or dict, [int] of a
    string, a roster entry that is not a string). *)
Inductive outcome (A : Type) :=
| Ok (a : A)
| Raise
| Unmodelled.
Arguments Ok {A} a.
Arguments Raise {A}.
Arguments Unmodelled {A}.

Global Instance outcome_bind : MBind outcome := λ A B f m,
  match m with
  | Ok a => f a
  | Raise => Raise
  | Unmodelled => Unmodelled
  end.

(** [o.get(k, dflt)] *)
Definition py_get (o : jvalue) (k : string) (dflt : jvalue) : outcome jvalue :=
  match o with
  | JObj d => Ok (default dflt (od_get d k))
  | _ => Raise
  end.

(** [str(v)] *)
Definition py_str (v : jvalue) : outcome string :=
  match v with
  | JStr s => Ok s
  | JInt n => Ok (PyStr.of_int n)
  | JBool true => Ok "True"
  | JBool false => Ok "False"
  | JNull => Ok "None"
  | JArr _ | JObj _ => Unmodelled
  end.

(** [bool(v)] *)
Definition py_bool (v : jvalue) : bool :=
  match v with
  | JNull => false
  | JBool b => b
  | JInt n => negb (n =? 0)%Z
  | JStr s => PyStr.nonempty s
  | JArr l => match l with [] => false | _ => true end
  | JObj o => match o with [] => false | _ => true end
  end.

(** [int(v)] *)
Definition py_int (v : jvalue) : outcome Z :=
  match v with
  | JInt n => Ok n
  | JBool b => Ok (if b then 1 else 0)
  | JStr _ => Unmodelled
  | JNull | JArr _ | JObj _ => Raise
  end.

Fixpoint chars (s : string) : list string :=
  match s with
  | EmptyString => []
  | String c s' => String c EmptyString :: chars s'
  end.

Fixpoint all_strings (l : list jvalue) : outcome (list string) :=
  match l with
  | [] => Ok []
  | JStr s :: l' => r ← all_strings l'; Ok (s :: r)
  | _ => Unmodelled
  end.

(** [list(v)], as a list of strings. *)
Definition py_list (v : jvalue) : outcome (list string) :=
  match v with
  | JArr l => all_strings l
  | JStr s => Ok (chars s)
  | JObj d => Ok (od_keys d)
  | JNull | JBool _ | JInt _ => Raise
  end.

(** One turn of the loop over [students_raw.items()]. *)
Definition load_student (key_or_name : string) (sdata : jvalue)
  : outcome (string * StudentState) :=
  k ← py_get sdata "key" (JStr "");
  key ← py_str k;
  key ← (if PyStr.nonempty key then Ok key
         else
           i ← py_get sdata "student_id" (JStr "");
           sid ← py_str i;
           let sid := PyStr.strip sid in
           if PyStr.nonempty sid then Ok ("sid:" +:+ sid)
           else Ok ("name:" +:+ key_or_name +:+ "#1"));
  n ← py_get sdata "name" (JStr key_or_name);
  name ← py_str n;
  i ← py_get sdata "student_id" (JStr "");
  student_id ← py_str i;
  t ← py_get sdata "tracked" (JBool true);
  u ← py_get sdata "used" (JInt 0);
  used ← py_int u;
  o ← py_get sdata "notes" (JStr "");
  notes ← py_str o;
  d ← py_get sdata "dropped" (JBool false);
  Ok (key, mkStudentState key name student_id (py_bool t) used notes
             (py_bool d) 0 0).

Fixpoint load_students (items : list (string * jvalue))
    (students : odict StudentState) : outcome (odict StudentState) :=
  match items with
  | [] => Ok students
  | (key_or_name, sdata) :: items' =>
      '(key, st) ← load_student key_or_name sdata;
      load_students items' (od_set students key st)
  end.

Definition load_save (save_path : save_file) : outcome (option SaveState) :=
  match save_path with
  | NoFile => Ok None
  | BadText => Raise
  | JsonText data =>
      r ← py_get data "roster_keys_in_order" (JArr []);
      roster ← py_list r;
      c ← py_get data "last_csv_name" (JStr "");
      last ← py_str c;
      students_raw ← py_get data "students" (JObj []);
      match students_raw with
      | JObj items =>
          students ← load_students items [];
          Ok (Some (mkSaveState roster students last))
      | _ => Raise
      end
  end.

Definition student_payload (st : StudentState) : jvalue :=
  JObj [("key", JStr (key st));
        ("name", JStr (name st));
        ("student_id", JStr (student_id st));
        ("tracked", JBool (tracked st));
        ("used", JInt (used st));
        ("notes", JStr (notes st));
        ("dropped", JBool (dropped st))].

Definition save_state (state : SaveState) : save_file :=
  JsonText
    (JObj [("roster_keys_in_order", JArr (JStr <$> roster_keys_in_order state));
           ("last_csv_name", JStr (last_csv_name state));
           ("students",
            JObj (foldl (λ d '(key, st), od_set d key (student_payload st))
                        [] (students state)))]).

(** ** CSV parsing

    [pd.read_csv] is outside the embedding: the frame it returns is given
    by its column labels and its rows.  A row maps a column label to the
    text that [str] gives for the cell ([nan] for an empty cell, [4421.0]
    for a float); a label without an entry reads as [None]. *)

Record DataFrame := mkDataFrame {
  columns : list string;
  rows : list (gmap string string)
}.

Definition CONFIRMED_ATTENDANCE_VALUES : list string :=
  ["1"; "1.0"; "1.00"; "1.000"; "1.0000"; "EX"].

(** [_ATTENDANCE_COL_RE.match(s)]: optional spaces, one or two digits, a
    dash, one or two digits, optional spaces, an opening parenthesis. *)
Definition attendance_col_match (s : string) : bool :=
  let after_digits (s : string) : option string :=
    match s with
    | String d1 r =>
        if PyStr.is_decimal d1 then
          match r with
          | String d2 r' => if PyStr.is_decimal d2 then Some r' else Some r
          | EmptyString => Some r
          end
        else None
    | EmptyString => None
    end in
  match after_digits (PyStr.lstrip s) with
  | Some (String "-" r) =>
      match after_digits r with
      | Some r' =>
          match PyStr.lstrip r' with
          | String "(" _ => true
          | _ => false
          end
      | None => false
      end
  | _ => false
  end.

(** [str(val)] for a cell. *)
Definition cell_str (val : option string) : string := default "None" val.

Definition is_real_student (val : option string) : bool :=
  match val with
  | None => false
  | Some v =>
      let s := PyStr.strip v in
      if negb (PyStr.nonempty s) then false
      else
        let sl := PyStr.lower s in
        if bool_decide (sl ∈ ["nan"; "points possible"]) then false else true
  end.

Definition normalize_name (raw : option string) : string :=
  let s := PyStr.strip (cell_str raw) in
  match (if PyStr.contains "," s then PyStr.split_once "," s else None) with
  | Some (p0, p1) =>
      let p0 := PyStr.strip p0 in
      let p1 := PyStr.strip p1 in
      if PyStr.nonempty p1 && PyStr.nonempty p0
      then PyStr.strip (p1 +:+ " " +:+ p0)
      else s
  | None => s
  end.

Definition normalize_sis (raw_id : option string) : string :=
  match raw_id with
  | None => ""
  | Some v =>
      let sid := PyStr.strip v in
      let sid := if String.eqb (PyStr.lower sid) "nan" then "" else sid in
      match PyStr.chop_dot_zero sid with
      | Some front => if PyStr.isdigit front then front else sid
      | None => sid
      end
  end.

(** The key of one row, as both loops over [df_students] compute it: the
    key, the name, the id and the occurrence counts afterwards. *)
Definition row_key (has_sis : bool) (name_occurrence : gmap string Z)
    (row : gmap string string) : string * string * string * gmap string Z :=
  let name := cell_str (row !! "__name__") in
  let sid := if has_sis then normalize_sis (row !! "SIS User ID") else "" in
  if PyStr.nonempty sid then ("sid:" +:+ sid, name, sid, name_occurrence)
  else
    let n := default 0 (name_occurrence !! name) + 1 in
    ("name:" +:+ name +:+ "#" +:+ PyStr.of_int n, name, sid,
     <[name := n]> name_occurrence).

(** First loop: keys in row order and the metadata of each key. *)
Fixpoint assign_keys (has_sis : bool) (rows : list (gmap string string))
    (name_occurrence : gmap string Z) (roster_keys_in_order : list string)
    (student_meta : gmap string (gmap string string))
  : list string * gmap string (gmap string string) :=
  match rows with
  | [] => (roster_keys_in_order, student_meta)
  | row :: rows' =>
      let '(key, name, sid, name_occurrence) :=
        row_key has_sis name_occurrence row in
      assign_keys has_sis rows' name_occurrence
        (roster_keys_in_order ++ [key])%list
        (<[key := {["name" := name; "student_id" := sid]}]> student_meta)
  end.

Definition last_name_sort_key (display_name : string) : string * string :=
  let parts := PyStr.split (PyStr.strip display_name) in
  match parts with
  | [] => ("", "")
  | _ =>
      (PyStr.lower (List.last parts ""),
       PyStr.lower (PyStr.join " " (removelast parts)))
  end.

(** The tuple by which [roster_keys_in_order.sort] orders a key. *)
Definition roster_sort_key (student_meta : gmap string (gmap string string))
    (k : string) : string * string * string * string :=
  let meta := default ∅ (student_meta !! k) in
  (last_name_sort_key (default "" (meta !! "name")),
   default "" (meta !! "student_id"), k).

(** Comparison of two tuples: the first components that differ decide. *)
Definition lex_cmp {A B : Type} (ca : A → A → comparison)
    (cb : B → B → comparison) (x y : A * B) : comparison :=
  match ca x.1 y.1 with
  | Eq => cb x.2 y.2
  | c => c
  end.

(** Comparison of the sort tuples [((last, rest), student_id, key)]. *)
Definition sort_key_cmp (a b : string * string * string * string) : comparison :=
  lex_cmp (lex_cmp (lex_cmp String.compare String.compare) String.compare)
    String.compare a b.

(** [a < b] on the sort tuples. *)
Definition sort_key_lt (a b : string * string * string * string) : bool :=
  match sort_key_cmp a b with Lt => true | _ => false end.

(** [list.sort(key=f)] is stable; so is insertion from the right, so both
    give the same list. *)
Section sort.
Context {A K : Type} (f : A → K) (lt : K → K → bool).

Fixpoint sort_insert (x : A) (l : list A) : list A :=
  match l with
  | [] => [x]
  | y :: l' => if lt (f y) (f x) then y :: sort_insert x l' else x :: l
  end.

Definition sort_by_key (l : list A) : list A := foldr sort_insert [] l.
End sort.

(** Second loop: the count of confirmed cells of each key. *)
Fixpoint count_attendance (has_sis : bool) (attendance_cols : list string)
    (rows : list (gmap string string))
    (name_occurrence_for_att : gmap string Z)
    (confirmed_attendance : gmap string Z) : gmap string Z :=
  match rows with
  | [] => confirmed_attendance
  | row :: rows' =>
      let '(key, _, _, name_occurrence_for_att) :=
        row_key has_sis name_occurrence_for_att row in
      let count :=
        foldl (λ count col,
                 match row !! col with
                 | None => count
                 | Some cell =>
                     if bool_decide (PyStr.strip cell ∈ CONFIRMED_ATTENDANCE_VALUES)
                     then count + 1 else count
                 end) 0 attendance_cols in
      count_attendance has_sis attendance_cols rows' name_occurrence_for_att
        (<[key := count]> confirmed_attendance)
  end.

(** The exceptions of [read_canvas_gradebook_csv]: the two [ValueError]s
    it raises itself, and the [KeyError] of [df_students["Student"]] on a
    frame without rows (there [df["Student"].apply(...)] is an empty
    Series that is not boolean, so [df[...]] selects no columns instead
    of masking rows). *)
Inductive csv_error :=
| MissingStudentColumn
| NoAttendanceColumns
| StudentKeyError.

(** The rows kept by [is_real_student], with the added [__name__] column
    (for a frame that has rows). *)
Definition df_students (df : DataFrame) : list (gmap string string) :=
  (λ row, <["__name__" := normalize_name (row !! "Student")]> row)
    <$> filter (λ row, is_real_student (row !! "Student") = true) (rows df).

Definition read_canvas_gradebook_csv (df : DataFrame)
  : csv_error + (list string * gmap string Z * gmap string (gmap string string)) :=
  if negb (bool_decide ("Student" ∈ columns df)) then inl MissingStudentColumn
  else
    let attendance_cols := filter (λ c, attendance_col_match c = true) (columns df) in
    match attendance_cols with
    | [] => inl NoAttendanceColumns
    | _ =>
        match rows df with
        | [] => inl StudentKeyError
        | _ =>
            let students := df_students df in
            let has_sis := bool_decide ("SIS User ID" ∈ columns df) in
            let '(roster_keys_in_order, student_meta) :=
              assign_keys has_sis students ∅ [] ∅ in
            let roster_keys_in_order :=
              sort_by_key (roster_sort_key student_meta) sort_key_lt
                roster_keys_in_order in
            let confirmed_attendance :=
              count_attendance has_sis attendance_cols students ∅ ∅ in
            inr (roster_keys_in_order, confirmed_attendance, student_meta)
        end
    end.

(** ** Further actions of the table *)

Definition set_dropped (st : StudentState) (b : bool) : StudentState :=
  mkStudentState (key st) (name st) (student_id st) (tracked st) (used st)
    (notes st) b (attendance_confirmed st) (earned st).

Definition set_notes (st : StudentState) (s : string) : StudentState :=
  mkStudentState (key st) (name st) (student_id st) (tracked st) (used st)
    s (dropped st) (attendance_confirmed st) (earned st).

(** [do_refund(n)] on the selected record. *)
Definition do_refund (sel : option StudentState) (n : Z) : option StudentState :=
  match sel with
  | None => None
  | Some st => Some (set_used st (Z.max 0 (used st - n)))
  end.

(** [do_toggle_drop()] on the selected record. *)
Definition do_toggle_drop (sel : option StudentState) : option StudentState :=
  match sel with
  | None => None
  | Some st =>
      let st := set_dropped st (negb (dropped st)) in
      if dropped st then Some (set_used st (Z.min (used st) (earned st)))
      else Some st
  end.

(** [do_edit_note()] on the selected record; [new_note] is what the
    dialog returned ([None] when it was cancelled). *)
Definition do_edit_note (sel : option StudentState) (new_note : option string)
  : option StudentState :=
  match sel with
  | None => None
  | Some st =>
      match new_note with
      | None => Some st
      | Some s => Some (set_notes st (PyStr.strip s))
      end
  end.

(** ** The rows of the table *)

(** [{k: i for i, k in enumerate(l)}], counting from [i]. *)
Fixpoint enumerate_map (l : list string) (i : Z) (m : gmap string Z)
  : gmap string Z :=
  match l with
  | [] => m
  | k :: l' => enumerate_map l' (i + 1) (<[k := i]> m)
  end.

(** The tuple by which [_tracked_sorted] orders a record. *)
Definition tracked_sort_key (key_to_pos : gmap string Z) (s : StudentState)
  : bool * Z :=
  (dropped s, default (10 ^ 9) (key_to_pos !! key s)).

Definition tracked_key_cmp : bool * Z → bool * Z → comparison :=
  lex_cmp Bool.compare Z.compare.

Definition tracked_key_lt (a b : bool * Z) : bool :=
  match tracked_key_cmp a b with Lt => true | _ => false end.

Definition _tracked_sorted (state : SaveState) : list StudentState :=
  let tracked :=
    filter (λ s, tracked s = true) (od_values (students state)) in
  let key_to_pos := enumerate_map (roster_keys_in_order state) 0 ∅ in
  sort_by_key (tracked_sort_key key_to_pos) tracked_key_lt tracked.

(** ** Moving the selection with the arrow keys *)

(** [l.index(x)]: the first position of [x], [None] for [ValueError]. *)
Fixpoint list_index (x : string) (l : list string) : option nat :=
  match l with
  | [] => None
  | y :: l' => if decide (y = x) then Some 0%nat else S <$> list_index x l'
  end.

(** [_selectable_iids()], from the children of the tree. *)
Definition _selectable_iids (children : list string) : list string :=
  filter (λ iid, iid ≠ "divider") children.

(** [on_up_key]: the row that [_set_selection] is called with, if any;
    [sel] is [tree.selection()]. *)
Definition on_up_key (children sel : list string) : option string :=
  let iids := _selectable_iids children in
  match iids with
  | [] => None
  | _ =>
      match sel with
      | [] => last iids
      | cur :: _ =>
          if decide (cur = "divider") then last iids
          else
            match list_index cur iids with
            | None => last iids
            | Some idx =>
                if decide (0 < idx)%nat then iids !! (idx - 1)%nat
                else last iids
            end
      end
  end.

(** [on_down_key], likewise. *)
Definition on_down_key (children sel : list string) : option string :=
  let iids := _selectable_iids children in
  match iids with
  | [] => None
  | _ =>
      match sel with
      | [] => head iids
      | cur :: _ =>
          if decide (cur = "divider") then head iids
          else
            match list_index cur iids with
            | None => head iids
            | Some idx =>
                if decide (idx < length iids - 1)%nat then iids !! (idx + 1)%nat
                else head iids
            end
      end
  end.

(** ** Loading the state for a CSV

    [gui_select_students] is the dialog: given the roster items it returns
    the set the user chose, or [None] when the user cancelled.  An
    exception of [read_canvas_gradebook_csv] passes through
    ([InitReadError]); a failure of [load_save] is [SystemExit]. *)

Inductive init_outcome :=
| InitReadError (e : csv_error)
| InitSystemExit
| InitCancelled
| InitUnmodelled
| InitState (state : SaveState) (written : option save_file).

Definition roster_items (roster_keys_in_order : list string)
    (student_meta : gmap string (gmap string string))
  : list (Z * string * string * string) :=
  imap (λ i k,
          (Z.of_nat i + 1, k,
           default "" (default ∅ (student_meta !! k) !! "name"),
           default "" (default ∅ (student_meta !! k) !! "student_id")))
       roster_keys_in_order.

(** [load_or_init_state(active_csv)]: [df] is the frame read from
    [active_csv], [save_path] what the save file holds; the result is the
    state and what was written to the save file, if anything. *)
Definition load_or_init_state
    (gui_select_students : list (Z * string * string * string) → option (gset string))
    (df : DataFrame) (save_path : save_file) (csv_name : string) : init_outcome :=
  match read_canvas_gradebook_csv df with
  | inl e => InitReadError e
  | inr (roster, attendance_confirmed, student_meta) =>
      match load_save save_path with
      | Raise => InitSystemExit
      | Unmodelled => InitUnmodelled
      | Ok None =>
          (* no prior: the dialog is shown; cancelling exits *)
          match gui_select_students (roster_items roster student_meta) with
          | None => InitCancelled
          | Some sel =>
              let state :=
                reconcile_state_with_csv roster attendance_confirmed student_meta
                  None (Some sel) csv_name in
              InitState state (Some (save_state state))
          end
      | Ok (Some prior) =>
          let roster_same :=
            match roster_keys_in_order prior with
            | [] => false
            | _ => bool_decide (roster_keys_in_order prior = roster)
            end in
          let selected_tracked :=
            if roster_same then None
            else gui_select_students (roster_items roster student_meta) in
          let state :=
            reconcile_state_with_csv roster attendance_confirmed student_meta
              (Some prior) selected_tracked csv_name in
          InitState state
            (match selected_tracked with
             | Some _ => Some (save_state state)
             | None => None
             end)
      end
  end.
(** * Definitions used by the statements *)

(** The chain in the words of the specification: a prior record under the
    same key; else, for a row with an id, a prior record whose id equals
    it; else the prior record of the same name when there is exactly one;
    else none. *)
Definition worded_match (prior_students : odict StudentState)
    (k nm sid : string) (prev : option StudentState) : Prop :=
  match od_get prior_students k with
  | Some p => prev = Some p
  | None =>
      let by_id := filter (λ p, student_id p = sid) (od_values prior_students) in
      if bool_decide (sid ≠ "" ∧ by_id ≠ []) then ∃ p, p ∈ by_id ∧ prev = Some p
      else match filter (λ p, name p = nm) (od_values prior_students) with
           | [p] => prev = Some p
           | _ => prev = None
           end
  end.

(** The chain as the code runs it, over the prior records in their stored
    order: the id of a prior record counts stripped of surrounding spaces
    and the last record with the id wins; the name rule is for rows with a
    name only. *)
Definition chain_match (prior_students : odict StudentState)
    (k nm sid : string) : option StudentState :=
  match od_get prior_students k with
  | Some p => Some p
  | None =>
      let by_id :=
        filter (λ p, PyStr.strip (student_id p) = sid) (od_values prior_students) in
      match (if PyStr.nonempty sid then last by_id else None) with
      | Some p => Some p
      | None =>
          if PyStr.nonempty nm then
            match filter (λ p, name p = nm) (od_values prior_students) with
            | [p] => Some p
            | _ => None
            end
          else None
      end
  end.

(** A record as it comes back from the save file: the cached fields are
    not written, so they are the defaults of [StudentState]. *)
Definition persisted (st : StudentState) : StudentState :=
  mkStudentState (key st) (name st) (student_id st) (tracked st) (used st)
    (notes st) (dropped st) 0 0.

(** Values on which [str] is described by [py_str]. *)
Definition str_able (v : jvalue) : bool :=
  match v with JArr _ | JObj _ => false | _ => true end.

(** Values on which [int] returns, as described by [py_int]. *)
Definition int_able (v : jvalue) : bool :=
  match v with JInt _ | JBool _ => true | _ => false end.

Definition field_ok (p : jvalue → bool) (o : list (string * jvalue))
    (f : string) : bool :=
  match od_get o f with Some v => p v | None => true end.

(** A record object whose text fields and [used], where present, have
    values of the kinds above. *)
Definition record_typed (o : list (string * jvalue)) : bool :=
  field_ok str_able o "key" && field_ok str_able o "name"
  && field_ok str_able o "student_id" && field_ok str_able o "notes"
  && field_ok int_able o "used".

(** A record object of a save file written before [tracked] was stored. *)
Definition legacy_record (v : jvalue) : Prop :=
  ∃ o, v = JObj o ∧ record_typed o = true ∧ od_get o "tracked" = None.

(** [a] may stand before [b] in a list sorted by the key [f]. *)
Definition key_le {A K : Type} (f : A → K) (cmp : K → K → comparison)
    (a b : A) : Prop :=
  cmp (f a) (f b) ≠ Gt.

(** A comparison that decides a strict total order. *)
Class StrictCmp {A : Type} (cmp : A → A → comparison) := {
  cmp_eq a b : cmp a b = Eq ↔ a = b;
  cmp_antisym a b : cmp a b = CompOpp (cmp b a);
  cmp_trans a b c : cmp a b = Lt → cmp b c = Lt → cmp a c = Lt
}.

(** What the key of a row depends on: its name and its id. *)
Definition row_ident (has_sis : bool) (row : gmap string string) : string * string :=
  (cell_str (row !! "__name__"),
   if has_sis then normalize_sis (row !! "SIS User ID") else "").

Definition ident_key (occ : gmap string Z) (id : string * string)
  : string * gmap string Z :=
  if PyStr.nonempty id.2 then ("sid:" +:+ id.2, occ)
  else
    let n := default 0 (occ !! id.1) + 1 in
    ("name:" +:+ id.1 +:+ "#" +:+ PyStr.of_int n, <[id.1 := n]> occ).

Fixpoint ident_keys (ids : list (string * string)) (occ : gmap string Z)
  : list string :=
  match ids with
  | [] => []
  | id :: ids' => (ident_key occ id).1 :: ident_keys ids' (ident_key occ id).2
  end.

Fixpoint ident_meta (ids : list (string * string)) (occ : gmap string Z)
    (meta : gmap string (gmap string string)) : gmap string (gmap string string) :=
  match ids with
  | [] => meta
  | id :: ids' =>
      ident_meta ids' (ident_key occ id).2
        (<[(ident_key occ id).1 := {["name" := id.1; "student_id" := id.2]}]> meta)
  end.

(** No id is carried by rows of different names. *)
Definition id_names_agree (ids : list (string * string)) : Prop :=
  ∀ n1 n2 s, (n1, s) ∈ ids → (n2, s) ∈ ids → s ≠ "" → n1 = n2.

Definition roster_of {E A B C : Type} (r : E + (A * B * C)) : option A :=
  match r with inr (roster, _, _) => Some roster | inl _ => None end.

(** * Sample data *)

(** Sample data. *)
Definition blank_name_prior : SaveState :=
  mkSaveState ["k0"]
    [("k0", mkStudentState "k0" "" "" true 3 "late twice" false 15 3)]
    "week3.csv".

Definition padded_id_prior : SaveState :=
  mkSaveState ["name:Ann Lee#1"]
    [("name:Ann Lee#1",
      mkStudentState "name:Ann Lee#1" "Ann Lee" " 42" true 2 "" false 15 3)]
    "week3.csv".

Definition padded_id_meta : gmap string (gmap string string) :=
  {["sid:42" := {["name" := "Ann B. Lee"; "student_id" := "42"]}]}.

Definition sample_state : SaveState :=
  mkSaveState ["sid:4421"; "name:Jane Doe#1"]
    [("sid:4421", mkStudentState "sid:4421" "Ann Lee" "4421" true 1 "late" false 7 1);
     ("name:Jane Doe#1",
      mkStudentState "name:Jane Doe#1" "Jane Doe" "" false 0 "" true 0 0)]
    "week4.csv".

Definition legacy_file : jvalue :=
  JObj [("roster_keys_in_order", JArr [JStr "Jane Doe"; JStr "Ann Lee"]);
        ("students",
         JObj [("Jane Doe", JObj [("used", JInt 1); ("notes", JStr "late")]);
               ("Ann Lee", JObj [("student_id", JStr "4421")])])].

(** Sample frames. *)
Definition sample_columns : list string :=
  ["Student"; "SIS User ID"; "1-12 (7448946)"].

Definition sample_row (student sis cell : string) : gmap string string :=
  {["Student" := student; "SIS User ID" := sis; "1-12 (7448946)" := cell]}.

Definition row_alice := sample_row "Zed, Alice" "1" "1.00".
Definition row_bob := sample_row "Young, Bob" "1" "0.00".
Definition row_carl := sample_row "Yz, Carl" "nan" "1.00".
Definition row_jane := sample_row "Doe, Jane" "4421.0" "EX".

Definition shared_id_frame : DataFrame :=
  mkDataFrame sample_columns [row_alice; row_bob; row_carl].
Definition shared_id_frame_reordered : DataFrame :=
  mkDataFrame sample_columns [row_bob; row_alice; row_carl].

Definition small_frame : DataFrame :=
  mkDataFrame sample_columns [row_jane; row_carl].
Definition small_frame_reordered : DataFrame :=
  mkDataFrame sample_columns [row_carl; row_jane].

Definition ten_dates : list string :=
  ["1-12 (7448946)"; "1-14 (7448947)"; "1-19 (7448948)"; "1-21 (7448949)";
   "1-26 (7448950)"; "1-28 (7448951)"; "2-02 (7448952)"; "2-04 (7448953)";
   "2-09 (7448954)"; "2-11 (7448955)"].

Definition scenario_a : DataFrame :=
  mkDataFrame ("Student" :: ten_dates)
    [list_to_map
       (("Student", "Doe, Jane")
        :: zip ten_dates
             ["1.00"; "1.00"; "0.00"; "EX"; "1"; "nan"; "1.0"; " 1.00 "; "ex"; "1.00"])].

Definition scenario_b_prior : SaveState :=
  mkSaveState ["name:Jane Doe#1"]
    [("name:Jane Doe#1",
      mkStudentState "name:Jane Doe#1" "Jane Doe" "" true 1 "" false 7 1)]
    "a.csv".

Definition scenario_b : DataFrame :=
  mkDataFrame ["Student"; "SIS User ID"; "1-12 (7448946)"; "1-14 (7448947)";
               "1-19 (7448948)"; "1-21 (7448949)"; "1-26 (7448950)"]
    [list_to_map
       [("Student", "Doe, Jane"); ("SIS User ID", "4421");
        ("1-12 (7448946)", "1.00"); ("1-14 (7448947)", "1.00");
        ("1-19 (7448948)", "1.00"); ("1-21 (7448949)", "1.00");
        ("1-26 (7448950)", "0.00")]].

(** * Properties *)

(** ** Insertion-ordered dictionaries *)

Section odict_facts.
Context {V : Type}.
Implicit Types (d : odict V) (k : string) (v : V) (f g : string → V).

Lemma od_get_set_eq d k v : od_get (od_set d k v) k = Some v.
Proof.
  induction d as [|[k' v'] d IH]; simpl.
  - by rewrite decide_True.
  - destruct (decide (k' = k)) as [->|Hne]; simpl.
    + by rewrite decide_True.
    + by rewrite decide_False.
Qed.

Lemma od_get_set_ne d k k' v : k ≠ k' → od_get (od_set d k v) k' = od_get d k'.
Proof.
  intros Hne. induction d as [|[k0 v0] d IH]; simpl.
  - by rewrite decide_False.
  - destruct (decide (k0 = k)) as [->|Hne0]; simpl.
    + by rewrite !decide_False.
    + by rewrite IH.
Qed.

Lemma od_set_Forall (P : string → V → Prop) d k v :
  Forall (λ e, P e.1 e.2) d → P k v → Forall (λ e, P e.1 e.2) (od_set d k v).
Proof.
  intros Hd Hv. induction Hd as [|[k' v'] d Hx Hd IH]; simpl.
  - by constructor.
  - destruct (decide (k' = k)) as [->|Hne]; constructor; auto.
Qed.

Lemma od_set_keys_fresh d k v :
  k ∉ od_keys d → od_set d k v = (d ++ [(k, v)])%list.
Proof.
  unfold od_keys. induction d as [|[k' v'] d IH]; simpl; [done|].
  intros Hk. rewrite decide_False.
  - rewrite IH; [done|]. intros ?; apply Hk; by right.
  - intros ->. apply Hk; by left.
Qed.

Lemma od_fill_Forall (P : string → V → Prop) f l d :
  Forall (λ e, P e.1 e.2) d → (∀ k, k ∈ l → P k (f k)) →
  Forall (λ e, P e.1 e.2) (od_fill f l d).
Proof.
  unfold od_fill. revert d. induction l as [|k l IH]; simpl; intros d Hd Hf.
  - done.
  - apply IH.
    + apply od_set_Forall; [done|]. apply Hf; by left.
    + intros k' Hk'. apply Hf; by right.
Qed.

Lemma od_fill_get f l d k :
  od_get (od_fill f l d) k = if decide (k ∈ l) then Some (f k) else od_get d k.
Proof.
  unfold od_fill. revert d. induction l as [|k' l IH]; cbn [foldl]; intros d.
  - case_decide as Hin; [by apply elem_of_nil in Hin|done].
  - rewrite IH. destruct (decide (k ∈ l)) as [Hin|Hnin].
    + case_decide as Hin'; [done|]. destruct Hin'; by right.
    + destruct (decide (k' = k)) as [->|Hne].
      * case_decide as Hin'; [apply od_get_set_eq|]. destruct Hin'; by left.
      * case_decide as Hin'; [|by apply od_get_set_ne].
        apply elem_of_cons in Hin' as [->|?]; done.
Qed.

Lemma od_fill_ext f g l d :
  (∀ k, k ∈ l → f k = g k) → od_fill f l d = od_fill g l d.
Proof.
  unfold od_fill. revert d. induction l as [|k l IH]; simpl; intros d Hfg; [done|].
  rewrite (Hfg k) by (by left). apply IH. intros k' Hk'. apply Hfg; by right.
Qed.

Lemma od_fill_NoDup f l :
  NoDup l → od_fill f l [] = (λ k, (k, f k)) <$> l.
Proof.
  intros Hl.
  assert (∀ d, (∀ k, k ∈ l → k ∉ od_keys d) →
               od_fill f l d = (d ++ ((λ k, (k, f k)) <$> l))%list) as Hgen.
  { unfold od_fill. induction Hl as [|k l Hk Hl IH]; simpl; intros d Hd.
    - by rewrite app_nil_r.
    - rewrite od_set_keys_fresh by (apply Hd; by left).
      rewrite IH.
      + by rewrite <- app_assoc.
      + intros k' Hk'. unfold od_keys. rewrite fmap_app. simpl.
        intros Hin. apply elem_of_app in Hin as [Hin|Hin].
        * revert Hin. apply Hd. by right.
        * apply list_elem_of_singleton in Hin. by subst. }
  apply (Hgen []). intros k _. unfold od_keys; simpl. apply not_elem_of_nil.
Qed.

End odict_facts.

(** ** Reconciliation *)

Lemma reconcile_students_eq roster att meta prior sel csv :
  students (reconcile_state_with_csv roster att meta prior sel csv)
  = od_fill (reconcile_student att meta (students_of prior)
               (index_prior (students_of prior)).1
               (index_prior (students_of prior)).2 sel) roster [].
Proof.
  unfold reconcile_state_with_csv.
  by destruct (index_prior _) as [bs bn].
Qed.

Lemma reconcile_students roster att meta prior sel csv :
  ∃ ps bs bn,
    students (reconcile_state_with_csv roster att meta prior sel csv)
    = od_fill (reconcile_student att meta ps bs bn sel) roster [].
Proof. rewrite reconcile_students_eq. eauto. Qed.

Lemma build_student_clamped att sel k nm sid prev :
  used (build_student att sel k nm sid prev)
  ≤ earned (build_student att sel k nm sid prev).
Proof.
  unfold build_student; simpl. case_decide; lia.
Qed.

Lemma build_student_again att sel k nm sid prev :
  build_student att None k nm sid (Some (build_student att sel k nm sid prev))
  = build_student att sel k nm sid prev.
Proof.
  unfold build_student; simpl.
  destruct sel, prev; simpl; repeat case_decide; try done; try lia.
Qed.

(** C1.  Clamp law: every record of the state returned by
    [reconcile_state_with_csv] has [used <= earned], whatever the roster,
    the counts, the metadata, the prior state and the selection are. *)
Theorem reconcile_used_le_earned roster att meta prior sel csv :
  Forall (λ st, used st ≤ earned st)
    (od_values (students (reconcile_state_with_csv roster att meta prior sel csv))).
Proof.
  destruct (reconcile_students roster att meta prior sel csv)
    as (ps & bs & bn & ->).
  unfold od_values. apply Forall_fmap.
  apply (od_fill_Forall (λ _ st, used st ≤ earned st)); [constructor|].
  intros k _. apply build_student_clamped.
Qed.

(** Every record sits under its own key. *)
Lemma reconcile_keys roster att meta prior sel csv :
  Forall (λ e, key e.2 = e.1)
    (students (reconcile_state_with_csv roster att meta prior sel csv)).
Proof.
  destruct (reconcile_students roster att meta prior sel csv)
    as (ps & bs & bn & ->).
  apply (od_fill_Forall (λ k st, key st = k)); [constructor|done].
Qed.

(** C4.  With an explicit selection, [tracked] of every record of the
    output is membership of its key in the selection, whatever the prior
    state holds; and a selection of one key of a roster of three distinct
    keys leaves exactly one tracked record. *)
Theorem reconcile_selection_decides_tracked :
  (∀ roster att meta prior (sel : gset string) csv,
      Forall (λ st, tracked st = bool_decide (key st ∈ sel))
        (od_values (students
           (reconcile_state_with_csv roster att meta prior (Some sel) csv))))
  ∧ (∀ k1 k2 k3 k att meta prior csv,
        NoDup [k1; k2; k3] → k ∈ [k1; k2; k3] →
        length (filter (λ st, tracked st = true)
                  (od_values (students
                     (reconcile_state_with_csv [k1; k2; k3] att meta prior
                        (Some {[k]}) csv)))) = 1%nat).
Proof.
  split.
  - intros roster att meta prior sel csv.
    destruct (reconcile_students roster att meta prior (Some sel) csv)
      as (ps & bs & bn & ->).
    unfold od_values. apply Forall_fmap.
    set (P := λ (_ : string) (st : StudentState),
                tracked st = bool_decide (key st ∈ sel)).
    apply (od_fill_Forall P); [constructor|done].
  - intros k1 k2 k3 k att meta prior csv Hnd Hin.
    destruct (reconcile_students [k1; k2; k3] att meta prior (Some {[k]}) csv)
      as (ps & bs & bn & ->).
    rewrite od_fill_NoDup by done.
    apply NoDup_cons in Hnd as [Hk1 Hnd].
    apply NoDup_cons in Hnd as [Hk2 _].
    assert (k1 ≠ k2) as H12 by (intros ->; apply Hk1; by left).
    assert (k1 ≠ k3) as H13 by (intros ->; apply Hk1; right; by left).
    assert (k2 ≠ k3) as H23 by (intros ->; apply Hk2; by left).
    rewrite !elem_of_cons in Hin.
    assert (∀ x, bool_decide (x ∈ ({[k]} : gset string)) = bool_decide (x = k)) as Hsel.
    { intros x. apply bool_decide_ext. apply elem_of_singleton. }
    cbn -[bool_decide]. rewrite !Hsel.
    destruct Hin as [->|[->|[->|Hin]]]; [..|by apply elem_of_nil in Hin].
    + rewrite (bool_decide_eq_true_2 (k1 = k1)), (bool_decide_eq_false_2 (k2 = k1)),
        (bool_decide_eq_false_2 (k3 = k1)) by congruence. done.
    + rewrite (bool_decide_eq_true_2 (k2 = k2)), (bool_decide_eq_false_2 (k1 = k2)),
        (bool_decide_eq_false_2 (k3 = k2)) by congruence. done.
    + rewrite (bool_decide_eq_true_2 (k3 = k3)), (bool_decide_eq_false_2 (k1 = k3)),
        (bool_decide_eq_false_2 (k2 = k3)) by congruence. done.
Qed.

(** C7.  Idempotence: reconciling the state that reconciliation returned
    against the same keys, counts and metadata, with no selection, returns
    that state again: the same roster order and the same records, field for
    field; only the snapshot name is the one passed in. *)
Theorem reconcile_idempotent roster att meta prior sel csv :
  let S := reconcile_state_with_csv roster att meta prior sel csv in
  reconcile_state_with_csv roster att meta (Some S) None csv = S
  ∧ ∀ csv', reconcile_state_with_csv roster att meta (Some S) None csv'
            = mkSaveState (roster_keys_in_order S) (students S) csv'.
Proof.
  intros S.
  assert (∀ csv', reconcile_state_with_csv roster att meta (Some S) None csv'
                  = mkSaveState (roster_keys_in_order S) (students S) csv') as Hgen.
  { intros csv'. subst S. unfold reconcile_state_with_csv at 1.
    destruct (index_prior _) as [bs' bn']. cbn [roster_keys_in_order].
    destruct (reconcile_students roster att meta prior sel csv)
      as (ps & bs & bn & Hst).
    f_equal.
    - unfold reconcile_state_with_csv.
      destruct (index_prior (students_of prior)); reflexivity.
    - cbn [students students_of] in *. rewrite Hst.
      apply (od_fill_ext
               (reconcile_student att meta
                  (od_fill (reconcile_student att meta ps bs bn sel) roster [])
                  bs' bn' None)).
      intros k Hk. unfold reconcile_student at 1. unfold find_prev.
      rewrite od_fill_get, decide_True by done.
      apply build_student_again. }
  split; [|done].
  rewrite Hgen. subst S. unfold reconcile_state_with_csv.
  by destruct (index_prior _).
Qed.

(** ** Slip accounting *)

(** C8.  [compute_earned c] is the floor of [c / 5]; it does not change
    from [c] to [c + 1] unless [c mod 5 = 4]; seven attendances earn one
    slip day. *)
Theorem compute_earned_floor (c : Z) :
  0 ≤ c →
  compute_earned c = c `div` 5
  ∧ 5 * compute_earned c ≤ c < 5 * compute_earned c + 5
  ∧ (c `mod` 5 ≠ 4 → compute_earned c = compute_earned (c + 1))
  ∧ compute_earned 7 = 1.
Proof.
  intros Hc. unfold compute_earned, ATTENDANCES_PER_SLIP.
  repeat split; try done.
  - apply Z.mul_div_le; lia.
  - pose proof (Z.mul_succ_div_gt c 5). lia.
  - intros Hm.
    pose proof (Z.div_mod c 5 ltac:(lia)) as Hdm.
    pose proof (Z.mod_pos_bound c 5 ltac:(lia)) as Hb.
    apply (Z.div_unique (c + 1) 5 (c `div` 5) (c `mod` 5 + 1)); lia.
Qed.

Lemma compute_earned_floor_witness :
  compute_earned 13 = 13 `div` 5
  ∧ 5 * compute_earned 13 ≤ 13 < 5 * compute_earned 13 + 5
  ∧ (13 `mod` 5 ≠ 4 → compute_earned 13 = compute_earned (13 + 1))
  ∧ compute_earned 7 = 1.
Proof. apply (compute_earned_floor 13). lia. Defined.

(** C6.  [do_use] on a record [r]: when [r] is dropped or [n] exceeds
    [available r], a message is shown and [r] is left as it was; otherwise
    [used] grows by [n] and no other field changes.  With [earned = 1] and
    [used = 0], using 2 is refused and [used] stays 0. *)
Theorem do_use_refuses_or_consumes (r : StudentState) (n : Z) :
  (dropped r = true ∨ n > available r →
   ∃ m, do_use (Some r) n = (Some r, Some m))
  ∧ (dropped r = false → n ≤ available r →
     ∃ r', do_use (Some r) n = (Some r', None)
           ∧ used r' = used r + n
           ∧ key r' = key r ∧ name r' = name r
           ∧ student_id r' = student_id r ∧ tracked r' = tracked r
           ∧ notes r' = notes r ∧ dropped r' = dropped r
           ∧ attendance_confirmed r' = attendance_confirmed r
           ∧ earned r' = earned r)
  ∧ (earned r = 1 → used r = 0 →
     ∃ m, do_use (Some r) 2 = (Some r, Some m) ∧ used r = 0).
Proof.
  unfold do_use. repeat split.
  - intros [Hd|Hn].
    + rewrite Hd. eauto.
    + destruct (dropped r); [eauto|]. rewrite decide_True by lia. eauto.
  - intros Hd Hn. rewrite Hd, decide_False by lia.
    eexists. split; [reflexivity|]. by destruct r.
  - intros He Hu. destruct (dropped r); [eauto|].
    rewrite decide_True; [eauto|]. unfold available. lia.
Qed.

(** ** The matching chain *)

Lemma nonempty_true s : PyStr.nonempty s = true ↔ s ≠ "".
Proof. by destruct s. Qed.

Lemma index_prior_lookup (l : list StudentState)
    (acc : gmap string StudentState * gmap string (list StudentState)) :
  (∀ sid, sid ≠ "" →
     (foldl index_step acc l).1 !! sid
     = match last (filter (λ p, PyStr.strip (student_id p) = sid) l) with
       | Some p => Some p
       | None => acc.1 !! sid
       end)
  ∧ (∀ nm, default [] ((foldl index_step acc l).2 !! nm)
           = (default [] (acc.2 !! nm) ++ filter (λ p, name p = nm) l)%list).
Proof.
  revert acc. induction l as [|p l IH]; intros [bs0 bn0]; cbn [foldl].
  - split; [done|]. intros nm. by rewrite filter_nil, app_nil_r.
  - destruct (IH (index_step (bs0, bn0) p)) as [IH1 IH2].
    split.
    + intros sid Hsid. rewrite IH1 by done. rewrite filter_cons.
      cbn [index_step fst snd].
      destruct (decide (PyStr.strip (student_id p) = sid)) as [Heq|Hne].
      * rewrite last_cons. destruct (last _); [done|].
        rewrite Heq. apply nonempty_true in Hsid. rewrite Hsid.
        by rewrite lookup_insert_eq.
      * destruct (last _); [done|].
        destruct (PyStr.nonempty _); [|done]. by rewrite lookup_insert_ne.
    + intros nm. rewrite IH2, filter_cons. cbn [index_step fst snd].
      destruct (decide (name p = nm)) as [->|Hne].
      * rewrite lookup_insert_eq. simpl. by rewrite <- app_assoc.
      * by rewrite lookup_insert_ne.
Qed.

Lemma find_prev_chain (ps : odict StudentState) k nm sid :
  find_prev ps (index_prior ps).1 (index_prior ps).2 k nm sid
  = chain_match ps k nm sid.
Proof.
  unfold find_prev, chain_match, index_prior.
  destruct (index_prior_lookup (od_values ps) (∅, ∅)) as [H1 H2].
  cbn [fst snd] in H1, H2.
  destruct (od_get ps k) as [p|]; [done|].
  rewrite H2, lookup_empty. cbn [default app].
  destruct (PyStr.nonempty sid) eqn:Hsid.
  - apply nonempty_true in Hsid. rewrite (H1 _ Hsid), lookup_empty.
    by destruct (last _).
  - done.
Qed.

(** C2, as the code has it.  For a key [k] of the roster, the record
    stored under [k] is built from the prior record that [chain_match]
    finds: the record under the same key; else, for a row with an id, the
    last prior record whose id, stripped of surrounding spaces, equals it;
    else, for a row with a name, the prior record of that name when
    exactly one has it; else none.  Without a match the record has empty
    notes, is not dropped, is untracked unless the selection holds its
    key, and its [used] is 0 (clamped to [earned], so 0 whenever the count
    is not negative). *)
Theorem reconcile_matching_chain roster att meta prior sel csv k :
  k ∈ roster →
  let nm := meta_field (meta !! k) "name" in
  let sid := meta_field (meta !! k) "student_id" in
  let prev := chain_match (students_of prior) k nm sid in
  let st := build_student att sel k nm sid prev in
  od_get (students (reconcile_state_with_csv roster att meta prior sel csv)) k
  = Some st
  ∧ (prev = None →
     tracked st = match sel with
                  | Some s => bool_decide (k ∈ s)
                  | None => false
                  end
     ∧ used st = Z.min 0 (earned st) ∧ notes st = "" ∧ dropped st = false
     ∧ (0 ≤ default 0 (att !! k) → used st = 0)).
Proof.
  intros Hk nm sid prev st. split.
  - rewrite reconcile_students_eq, od_fill_get, decide_True by done.
    unfold reconcile_student. by rewrite find_prev_chain.
  - intros Hprev. subst st. rewrite Hprev. unfold build_student; simpl.
    repeat split.
    + case_decide; lia.
    + intros Hatt. unfold compute_earned, ATTENDANCES_PER_SLIP.
      pose proof (Z.div_pos (default 0 (att !! k)) 5 Hatt ltac:(lia)).
      case_decide; lia.
Qed.

Lemma reconcile_matching_chain_witness :
  let att : gmap string Z := {["sid:42" := 15]} in
  let prev := chain_match (students padded_id_prior) "sid:42" "Ann B. Lee" "42" in
  let st := build_student att None "sid:42" "Ann B. Lee" "42" prev in
  od_get (students (reconcile_state_with_csv ["sid:42"] att padded_id_meta
                      (Some padded_id_prior) None "week4.csv")) "sid:42"
  = Some st
  ∧ (prev = None →
     tracked st = false
     ∧ used st = Z.min 0 (earned st) ∧ notes st = "" ∧ dropped st = false
     ∧ (0 ≤ default 0 (att !! "sid:42") → used st = 0)).
Proof.
  apply (reconcile_matching_chain ["sid:42"] {["sid:42" := 15]} padded_id_meta
           (Some padded_id_prior) None "week4.csv" "sid:42").
  by left.
Defined.

(** C2 as worded fails on the code.  A row without a name does not adopt
    the only prior record without a name; and a row with id [42] adopts
    the prior record whose stored id is [ 42], which is not equal to it. *)
Lemma reconcile_worded_chain_fails :
  (let att : gmap string Z := {["k1" := 15]} in
   ¬ ∃ prev,
       worded_match (students blank_name_prior) "k1" "" "" prev
       ∧ od_get (students (reconcile_state_with_csv ["k1"] att ∅
                             (Some blank_name_prior) None "week4.csv")) "k1"
         = Some (build_student att None "k1" "" "" prev))
  ∧ (let att : gmap string Z := {["sid:42" := 15]} in
     ¬ ∃ prev,
         worded_match (students padded_id_prior) "sid:42" "Ann B. Lee" "42" prev
         ∧ od_get (students (reconcile_state_with_csv ["sid:42"] att padded_id_meta
                               (Some padded_id_prior) None "week4.csv")) "sid:42"
           = Some (build_student att None "sid:42" "Ann B. Lee" "42" prev)).
Proof.
  split; intros att (prev & Hm & Hout).
  - vm_compute in Hm. subst prev. vm_compute in Hout. discriminate.
  - vm_compute in Hm. subst prev. vm_compute in Hout. discriminate.
Qed.

Lemma reconcile_selection_decides_tracked_witness :
  length (filter (λ st, tracked st = true)
            (od_values (students
               (reconcile_state_with_csv ["sid:1"; "sid:2"; "sid:4421"] ∅ ∅ None
                  (Some {["sid:4421"]}) "week4.csv")))) = 1%nat.
Proof.
  apply (proj2 reconcile_selection_decides_tracked
           "sid:1" "sid:2" "sid:4421" "sid:4421" ∅ ∅ None "week4.csv").
  - compute_done.
  - compute_done.
Defined.

Lemma do_use_refuses_or_consumes_witness :
  let r := mkStudentState "sid:4421" "Jane Doe" "4421" true 0 "" false 7 1 in
  (∃ m, do_use (Some r) 2 = (Some r, Some m))
  ∧ (∃ r', do_use (Some r) 1 = (Some r', None) ∧ used r' = 1)
  ∧ (∃ m, do_use (Some r) 2 = (Some r, Some m) ∧ used r = 0).
Proof.
  intros r.
  destruct (do_use_refuses_or_consumes r 2) as (H1 & _ & H3).
  destruct (do_use_refuses_or_consumes r 1) as (_ & H2 & _).
  split; [|split].
  - apply H1. right. reflexivity.
  - destruct (H2 eq_refl ltac:(discriminate)) as (r' & Hr & Hu & _).
    exists r'. split; [exact Hr|exact Hu].
  - apply H3; reflexivity.
Defined.

(** ** Save and load *)

Lemma py_str_able v : str_able v = true → ∃ s, py_str v = Ok s.
Proof. destruct v as [|[]| | | |]; simpl; eauto; discriminate. Qed.

Lemma py_int_able v : int_able v = true → ∃ n, py_int v = Ok n.
Proof. destruct v; simpl; eauto; discriminate. Qed.

Lemma field_ok_default p o f d :
  field_ok p o f = true → p d = true → p (default d (od_get o f)) = true.
Proof. unfold field_ok. by destruct (od_get o f). Qed.

Lemma load_student_typed k o :
  record_typed o = true →
  ∃ key st, load_student k (JObj o) = Ok (key, st)
    ∧ tracked st = py_bool (default (JBool true) (od_get o "tracked"))
    ∧ py_int (default (JInt 0) (od_get o "used")) = Ok (used st)
    ∧ py_str (default (JStr "") (od_get o "notes")) = Ok (notes st)
    ∧ dropped st = py_bool (default (JBool false) (od_get o "dropped")).
Proof.
  unfold record_typed. rewrite !andb_true_iff.
  intros ((((Hk & Hn) & Hi) & Ho) & Hu).
  destruct (py_str_able _ (field_ok_default _ _ _ (JStr "") Hk eq_refl)) as [sk Esk].
  destruct (py_str_able _ (field_ok_default _ _ _ (JStr k) Hn eq_refl)) as [sn Esn].
  destruct (py_str_able _ (field_ok_default _ _ _ (JStr "") Hi eq_refl)) as [si Esi].
  destruct (py_str_able _ (field_ok_default _ _ _ (JStr "") Ho eq_refl)) as [so Eso].
  destruct (py_int_able _ (field_ok_default _ _ _ (JInt 0) Hu eq_refl)) as [nu Enu].
  unfold load_student, py_get. cbn [mbind outcome_bind].
  rewrite Esk. cbn [mbind outcome_bind].
  rewrite Esi. cbn [mbind outcome_bind].
  destruct (PyStr.nonempty sk); cbn [mbind outcome_bind].
  - rewrite Esn. cbn [mbind outcome_bind]. rewrite Enu. cbn [mbind outcome_bind].
    rewrite Eso. cbn [mbind outcome_bind]. eauto 10.
  - destruct (PyStr.nonempty _); cbn [mbind outcome_bind].
    + rewrite Esn. cbn [mbind outcome_bind]. rewrite Enu. cbn [mbind outcome_bind].
      rewrite Eso. cbn [mbind outcome_bind]. eauto 10.
    + rewrite Esn. cbn [mbind outcome_bind]. rewrite Enu. cbn [mbind outcome_bind].
      rewrite Eso. cbn [mbind outcome_bind]. eauto 10.
Qed.

Lemma load_students_legacy items acc :
  Forall (λ e, legacy_record e.2) items →
  Forall (λ e, tracked e.2 = true) acc →
  ∃ d, load_students items acc = Ok d ∧ Forall (λ e, tracked e.2 = true) d.
Proof.
  intros Hitems. revert acc.
  induction Hitems as [|[k v] items (o & Hv & Ht & Hno) _ IH]; intros acc Hacc.
  - simpl. eauto.
  - simpl in Hv. subst v. cbn [load_students snd] in *.
    destruct (load_student_typed k o Ht) as (key' & st & -> & Htr & _).
    cbn [mbind outcome_bind]. apply IH.
    apply (od_set_Forall (λ _ st, tracked st = true)); [done|].
    rewrite Htr, Hno. done.
Qed.

Lemma all_strings_JStr (l : list string) : all_strings (JStr <$> l) = Ok l.
Proof.
  induction l as [|s l IH]; [done|].
  cbn [fmap list_fmap all_strings].
  change (list_fmap _ _ JStr l) with (JStr <$> l). by rewrite IH.
Qed.

(** The payload of the records, when the keys of the dict are distinct. *)
Lemma students_payload (l : odict StudentState) (d : odict jvalue) :
  NoDup (od_keys d ++ od_keys l) →
  foldl (λ d '(key, st), od_set d key (student_payload st)) d l
  = (d ++ ((λ e, (e.1, student_payload e.2)) <$> l))%list.
Proof.
  revert d. induction l as [|[k st] l IH]; intros d Hnd; cbn [foldl].
  - by rewrite app_nil_r.
  - assert (k ∉ od_keys d) as Hk.
    { apply NoDup_app in Hnd as (_ & Hd & _). intros Hin.
      apply (Hd k Hin). by left. }
    rewrite od_set_keys_fresh by done. rewrite IH.
    + by rewrite <- app_assoc.
    + unfold od_keys in *. rewrite fmap_app. simpl.
      rewrite <- app_assoc. exact Hnd.
Qed.

Lemma load_student_payload k st :
  key st ≠ "" →
  load_student k (student_payload st) = Ok (key st, persisted st).
Proof.
  destruct st as [[|c k0] nm sid t u no dr a e]; [done|]. reflexivity.
Qed.

Lemma load_students_payload (l acc : odict StudentState) :
  NoDup (od_keys acc ++ od_keys l) →
  Forall (λ e, key e.2 = e.1 ∧ e.1 ≠ "") l →
  load_students ((λ e, (e.1, student_payload e.2)) <$> l) acc
  = Ok (acc ++ ((λ e, (e.1, persisted e.2)) <$> l))%list.
Proof.
  revert acc. induction l as [|[k st] l IH]; intros acc Hnd Hl.
  - simpl. by rewrite app_nil_r.
  - apply Forall_cons in Hl as [[Hk Hne] Hl]. simpl in Hk, Hne.
    cbn [fmap list_fmap load_students fst snd].
    rewrite load_student_payload by (by rewrite Hk).
    cbn [mbind outcome_bind].
    assert (k ∉ od_keys acc) as Hfresh.
    { apply NoDup_app in Hnd as (_ & Hd & _). intros Hin.
      apply (Hd k Hin). by left. }
    rewrite Hk, od_set_keys_fresh by done.
    change (list_fmap _ _ ?f l) with (f <$> l). rewrite IH.
    + by rewrite <- app_assoc.
    + unfold od_keys in *. rewrite fmap_app. simpl.
      rewrite <- app_assoc. exact Hnd.
    + done.
Qed.

Lemma load_save_shape top (roster : list string) last items :
  py_list (default (JArr []) (od_get top "roster_keys_in_order")) = Ok roster →
  py_str (default (JStr "") (od_get top "last_csv_name")) = Ok last →
  default (JObj []) (od_get top "students") = JObj items →
  load_save (JsonText (JObj top))
  = (students ← load_students items []; Ok (Some (mkSaveState roster students last))).
Proof.
  intros Hr Hl Hs. unfold load_save, py_get. cbn [mbind outcome_bind].
  rewrite Hr. cbn [mbind outcome_bind]. rewrite Hl. cbn [mbind outcome_bind].
  by rewrite Hs.
Qed.

(** C5, as the code has it.  For a state whose records sit under their
    own, non-empty and distinct keys, loading what [save_state] wrote
    returns the same roster order, the same snapshot name and the same
    records except that [attendance_confirmed] and [earned], which are not
    written, come back as 0; so the state itself comes back when those two
    fields are 0 in every record. *)
Theorem load_save_roundtrip_persisted (state : SaveState) :
  NoDup (od_keys (students state)) →
  Forall (λ e, key e.2 = e.1 ∧ e.1 ≠ "") (students state) →
  load_save (save_state state)
  = Ok (Some (mkSaveState (roster_keys_in_order state)
                ((λ e, (e.1, persisted e.2)) <$> students state)
                (last_csv_name state)))
  ∧ (Forall (λ e, attendance_confirmed e.2 = 0 ∧ earned e.2 = 0) (students state) →
     load_save (save_state state) = Ok (Some state)).
Proof.
  intros Hnd Hkeys.
  assert (load_save (save_state state)
          = Ok (Some (mkSaveState (roster_keys_in_order state)
                        ((λ e, (e.1, persisted e.2)) <$> students state)
                        (last_csv_name state)))) as Hload.
  { unfold save_state.
    rewrite (load_save_shape _ (roster_keys_in_order state) (last_csv_name state)
               ((λ e, (e.1, student_payload e.2)) <$> students state)).
    - by rewrite load_students_payload.
    - apply all_strings_JStr.
    - reflexivity.
    - change (default (JObj []) (od_get _ "students"))
        with (JObj (foldl (λ d '(key, st), od_set d key (student_payload st))
                      [] (students state))).
      by rewrite students_payload. }
  split; [done|]. intros Hzero. rewrite Hload. do 2 f_equal.
  destruct state as [r sts l]. simpl in *. f_equal.
  clear -Hzero. induction Hzero as [|[k st] sts [Ha He] _ IH]; [done|].
  cbn [fmap list_fmap]. change (list_fmap _ _ ?f sts) with (f <$> sts).
  rewrite IH. destruct st; simpl in *. by subst.
Qed.

(** C5 as worded fails on the code: a state returned by reconciliation
    (so with [used <= earned], distinct keys and freshly derived counts)
    does not come back from the save file when a count is not 0. *)
Lemma load_save_roundtrip_fails :
  let meta : gmap string (gmap string string) :=
    {["sid:4421" := {["name" := "Jane Doe"; "student_id" := "4421"]}]} in
  let state :=
    reconcile_state_with_csv ["sid:4421"] {["sid:4421" := 7]} meta None None
      "week4.csv" in
  Forall (λ st, used st ≤ earned st) (od_values (students state))
  ∧ NoDup (od_keys (students state))
  ∧ load_save (save_state state) ≠ Ok (Some state).
Proof.
  intros meta state. split; [compute_done|].
  split; [compute_done|].
  intros H. vm_compute in H. discriminate.
Qed.

Lemma load_save_roundtrip_persisted_witness :
  load_save (save_state sample_state)
  = Ok (Some (mkSaveState (roster_keys_in_order sample_state)
                ((λ e, (e.1, persisted e.2)) <$> students sample_state)
                (last_csv_name sample_state)))
  ∧ (Forall (λ e, attendance_confirmed e.2 = 0 ∧ earned e.2 = 0)
       (students sample_state) →
     load_save (save_state sample_state) = Ok (Some sample_state)).
Proof.
  apply (load_save_roundtrip_persisted sample_state).
  - compute_done.
  - compute_done.
Defined.

(** C10.  A record object without a [tracked] field loads with
    [tracked = true] (and without [used], [notes], [dropped]: 0, the empty
    string, false); a save file whose record objects all lack [tracked]
    loads as a state in which every record is tracked; whereas
    reconciliation, with no selection, leaves a record that matched no
    prior record untracked. *)
Theorem load_defaults_tracked :
  (∀ k o, record_typed o = true →
     ∃ key st, load_student k (JObj o) = Ok (key, st)
       ∧ (od_get o "tracked" = None → tracked st = true)
       ∧ (od_get o "used" = None → used st = 0)
       ∧ (od_get o "notes" = None → notes st = "")
       ∧ (od_get o "dropped" = None → dropped st = false))
  ∧ (∀ top roster last items,
       py_list (default (JArr []) (od_get top "roster_keys_in_order")) = Ok roster →
       py_str (default (JStr "") (od_get top "last_csv_name")) = Ok last →
       default (JObj []) (od_get top "students") = JObj items →
       Forall (λ e, legacy_record e.2) items →
       ∃ state, load_save (JsonText (JObj top)) = Ok (Some state)
         ∧ Forall (λ st, tracked st = true) (od_values (students state)))
  ∧ (∀ roster att meta prior csv k,
       k ∈ roster →
       chain_match (students_of prior) k (meta_field (meta !! k) "name")
         (meta_field (meta !! k) "student_id") = None →
       ∃ st, od_get (students (reconcile_state_with_csv roster att meta prior
                                 None csv)) k = Some st
             ∧ tracked st = false).
Proof.
  split; [|split].
  - intros k o Ht.
    destruct (load_student_typed k o Ht) as (key' & st & Hl & Htr & Hu & Hn & Hd).
    exists key', st. split; [done|]. repeat split.
    + intros E. by rewrite Htr, E.
    + intros E. rewrite E in Hu. simpl in Hu. congruence.
    + intros E. rewrite E in Hn. simpl in Hn. congruence.
    + intros E. by rewrite Hd, E.
  - intros top roster last items Hr Hl Hs Hitems.
    rewrite (load_save_shape top roster last items) by done.
    destruct (load_students_legacy items [] Hitems) as (d & -> & Hd); [constructor|].
    cbn [mbind outcome_bind]. eexists. split; [reflexivity|].
    unfold od_values. cbn [students]. by apply Forall_fmap.
  - intros roster att meta prior csv k Hk Hnone.
    rewrite reconcile_students_eq, od_fill_get, decide_True by done.
    eexists. split; [reflexivity|].
    unfold reconcile_student. by rewrite find_prev_chain, Hnone.
Qed.

Lemma load_defaults_tracked_witness :
  (∃ key st, load_student "Ann Lee" (JObj [("student_id", JStr "4421")]) = Ok (key, st)
     ∧ tracked st = true ∧ used st = 0 ∧ notes st = "" ∧ dropped st = false)
  ∧ (∃ state, load_save (JsonText legacy_file) = Ok (Some state)
       ∧ Forall (λ st, tracked st = true) (od_values (students state)))
  ∧ (∃ st, od_get (students (reconcile_state_with_csv ["sid:7"] ∅ ∅
                               (Some sample_state) None "week5.csv")) "sid:7"
           = Some st
           ∧ tracked st = false).
Proof.
  destruct load_defaults_tracked as (H1 & H2 & H3).
  split; [|split].
  - destruct (H1 "Ann Lee" [("student_id", JStr "4421")] eq_refl)
      as (key' & st & Hl & Ht & Hu & Hn & Hd).
    exists key', st. split; [exact Hl|].
    split; [exact (Ht eq_refl)|]. split; [exact (Hu eq_refl)|].
    split; [exact (Hn eq_refl)|exact (Hd eq_refl)].
  - apply (H2 _ ["Jane Doe"; "Ann Lee"] ""
             [("Jane Doe", JObj [("used", JInt 1); ("notes", JStr "late")]);
              ("Ann Lee", JObj [("student_id", JStr "4421")])]);
      try reflexivity.
    repeat constructor; eexists; (split; [reflexivity|split; reflexivity]).
  - apply (H3 ["sid:7"] ∅ ∅ (Some sample_state) "week5.csv" "sid:7").
    + by left.
    + reflexivity.
Defined.

(** ** Ordering of the roster *)

Global Instance string_StrictCmp : StrictCmp String.compare.
Proof.
  split.
  - apply OrderedTypeEx.String_as_OT.cmp_eq.
  - apply OrderedTypeEx.String_as_OT.cmp_antisym.
  - intros a b c Hab Hbc.
    apply OrderedTypeEx.String_as_OT.cmp_lt.
    apply OrderedTypeEx.String_as_OT.cmp_lt in Hab, Hbc.
    eapply OrderedTypeEx.String_as_OT.lt_trans; eassumption.
Qed.

Global Instance lex_StrictCmp {A B} (ca : A → A → comparison)
    (cb : B → B → comparison) `{!StrictCmp ca, !StrictCmp cb} :
  StrictCmp (lex_cmp ca cb).
Proof.
  split.
  - intros [a1 b1] [a2 b2]. unfold lex_cmp; simpl.
    destruct (ca a1 a2) eqn:Ea.
    + apply cmp_eq in Ea as ->. rewrite cmp_eq. naive_solver.
    + split; [done|]. intros [= -> _].
      assert (ca a2 a2 = Eq) by (by apply cmp_eq). congruence.
    + split; [done|]. intros [= -> _].
      assert (ca a2 a2 = Eq) by (by apply cmp_eq). congruence.
  - intros [a1 b1] [a2 b2]. unfold lex_cmp; simpl.
    rewrite (cmp_antisym (cmp := ca) a1 a2).
    destruct (ca a2 a1); simpl; [apply cmp_antisym|done..].
  - intros [a1 b1] [a2 b2] [a3 b3]. unfold lex_cmp; simpl.
    destruct (ca a1 a2) eqn:E12; [| |done].
    + apply cmp_eq in E12 as ->.
      destruct (ca a2 a3) eqn:E23; [|done..]. apply cmp_trans.
    + intros _. destruct (ca a2 a3) eqn:E23; [| |done].
      * apply cmp_eq in E23 as <-. by rewrite E12.
      * by rewrite (cmp_trans _ _ _ E12 E23).
Qed.

Section sort_facts.
Context {A K : Type} (f : A → K) (cmp : K → K → comparison).
Context `{!StrictCmp cmp}.
Hypothesis f_inj : ∀ a b, f a = f b → a = b.

Let lt (x y : K) : bool := match cmp x y with Lt => true | _ => false end.

Local Abbreviation kle := (key_le f cmp).

Lemma key_le_trans : Transitive kle.
Proof.
  intros a b c. unfold key_le. intros Hab Hbc.
  destruct (cmp (f a) (f b)) eqn:E1; [| |done].
  - apply cmp_eq in E1. by rewrite E1.
  - destruct (cmp (f b) (f c)) eqn:E2; [| |done].
    + apply cmp_eq in E2. by rewrite <- E2, E1.
    + by rewrite (cmp_trans _ _ _ E1 E2).
Qed.

Lemma key_le_antisym a b : kle a b → kle b a → a = b.
Proof.
  unfold key_le. rewrite (cmp_antisym (f b) (f a)). intros Hab Hba.
  apply f_inj, cmp_eq. by destruct (cmp (f a) (f b)).
Qed.

Lemma sort_insert_Permutation x l : sort_insert f lt x l ≡ₚ x :: l.
Proof.
  induction l as [|y l IH]; simpl; [done|].
  destruct (lt (f y) (f x)); [|done].
  rewrite IH. apply perm_swap.
Qed.

Lemma sort_by_key_Permutation l : sort_by_key f lt l ≡ₚ l.
Proof.
  induction l as [|x l IH]; simpl; [done|].
  by rewrite sort_insert_Permutation, IH.
Qed.

Lemma sort_insert_Sorted x l :
  Sorted kle l → Sorted kle (sort_insert f lt x l).
Proof.
  induction 1 as [|y l Hl IH Hy]; simpl.
  - by repeat constructor.
  - unfold lt at 1. destruct (cmp (f y) (f x)) eqn:E.
    + constructor; [by constructor|]. constructor. unfold key_le.
      rewrite cmp_antisym, E. done.
    + constructor; [done|].
      destruct Hl as [|z l Hl Hz]; simpl in *.
      * constructor. unfold key_le. by rewrite E.
      * destruct (lt (f z) (f x)).
        -- constructor. by inversion Hy.
        -- constructor. unfold key_le. by rewrite E.
    + constructor; [by constructor|]. constructor. unfold key_le.
      rewrite cmp_antisym, E. done.
Qed.

Lemma sort_by_key_Sorted l : Sorted kle (sort_by_key f lt l).
Proof.
  induction l as [|x l IH]; simpl; [constructor|].
  by apply sort_insert_Sorted.
Qed.

(** Sorting forgets the order in which the elements were given. *)
Lemma sort_by_key_perm l1 l2 :
  l1 ≡ₚ l2 → sort_by_key f lt l1 = sort_by_key f lt l2.
Proof.
  intros Hp.
  apply (Sorted_unique_strong kle (Transitive0 := key_le_trans)).
  - intros a b _ _. apply key_le_antisym.
  - apply sort_by_key_Sorted.
  - apply sort_by_key_Sorted.
  - by rewrite !sort_by_key_Permutation.
Qed.
End sort_facts.

(** ** Key derivation *)

Lemma row_key_ident has_sis occ row :
  row_key has_sis occ row
  = ((ident_key occ (row_ident has_sis row)).1, (row_ident has_sis row).1,
     (row_ident has_sis row).2, (ident_key occ (row_ident has_sis row)).2).
Proof.
  unfold row_key, ident_key, row_ident. cbn [fst snd].
  by destruct (PyStr.nonempty _).
Qed.

Lemma assign_keys_ident has_sis rows occ roster meta :
  assign_keys has_sis rows occ roster meta
  = ((roster ++ ident_keys (row_ident has_sis <$> rows) occ)%list,
     ident_meta (row_ident has_sis <$> rows) occ meta).
Proof.
  revert occ roster meta. induction rows as [|row rows IH]; intros occ roster meta.
  - simpl. by rewrite app_nil_r.
  - cbn [assign_keys fmap list_fmap ident_keys ident_meta].
    rewrite row_key_ident, IH. by rewrite <- app_assoc.
Qed.

Lemma contains_middle c a b : PyStr.contains c (a +:+ String c b) = true.
Proof.
  induction a as [|c' a IH]; simpl.
  - by rewrite decide_True.
  - by destruct (decide (c' = c)).
Qed.

Lemma append_mark_inj c n1 n2 d1 d2 :
  PyStr.contains c d1 = false → PyStr.contains c d2 = false →
  n1 +:+ String c d1 = n2 +:+ String c d2 → n1 = n2.
Proof.
  intros H1 H2. revert n2.
  induction n1 as [|a n1 IH]; intros [|b n2]; simpl; intros E.
  - done.
  - injection E as <- ->. by rewrite contains_middle in H1.
  - injection E as -> <-. by rewrite contains_middle in H2.
  - injection E as -> E. f_equal. by apply IH.
Qed.

Lemma uint_no_hash d : PyStr.contains "#" (NilEmpty.string_of_uint d) = false.
Proof. induction d; simpl; try done; by rewrite decide_False. Qed.

Lemma of_int_no_hash n : PyStr.contains "#" (PyStr.of_int n) = false.
Proof.
  unfold PyStr.of_int, NilZero.string_of_int, NilZero.string_of_uint.
  destruct (Z.to_int n) as [d|d]; destruct d; simpl;
    rewrite ?decide_False by done; try done; apply uint_no_hash.
Qed.

(** Two rows taken in either order get the same two keys and leave the
    same occurrence counts; the keys coincide only for one id. *)
Lemma ident_key_swap occ x y :
  x ≠ y →
  (ident_key (ident_key occ y).2 x).1 = (ident_key occ x).1
  ∧ (ident_key (ident_key occ x).2 y).1 = (ident_key occ y).1
  ∧ (ident_key (ident_key occ x).2 y).2 = (ident_key (ident_key occ y).2 x).2
  ∧ ((ident_key occ x).1 = (ident_key occ y).1 → x.2 = y.2 ∧ x.2 ≠ "").
Proof.
  destruct x as [nx sx], y as [ny sy]. intros Hne. unfold ident_key. cbn [fst snd].
  destruct (PyStr.nonempty sx) eqn:Ex, (PyStr.nonempty sy) eqn:Ey; cbn [fst snd].
  - split; [done|]. split; [done|]. split; [done|].
    cbn. intros [= H]. split; [done|]. by apply nonempty_true.
  - split; [done|]. split; [done|]. split; [done|]. simpl. discriminate.
  - split; [done|]. split; [done|]. split; [done|]. simpl. discriminate.
  - assert (sx = "") as -> by (by destruct sx).
    assert (sy = "") as -> by (by destruct sy).
    assert (nx ≠ ny) as Hn by congruence.
    rewrite !lookup_insert_ne by done.
    split; [done|]. split; [done|]. split; [by apply insert_insert_ne|].
    cbn. intros [= H]. exfalso. apply Hn.
    eapply append_mark_inj; [| |exact H]; apply of_int_no_hash.
Qed.

Lemma id_names_agree_perm ids1 ids2 :
  ids1 ≡ₚ ids2 → id_names_agree ids1 → id_names_agree ids2.
Proof.
  intros Hp H n1 n2 s H1 H2. apply H; by rewrite Hp.
Qed.

Lemma id_names_agree_tail id ids :
  id_names_agree (id :: ids) → id_names_agree ids.
Proof. intros H n1 n2 s H1 H2. apply H; by right. Qed.

(** The keys of the first loop, as a multiset, do not depend on the order
    of the rows. *)
Lemma ident_keys_perm ids1 ids2 :
  ids1 ≡ₚ ids2 → ∀ occ, ident_keys ids1 occ ≡ₚ ident_keys ids2 occ.
Proof.
  induction 1 as [|x l l' _ IH|x y l|l1 l2 l3 _ IH1 _ IH2]; intros occ.
  - done.
  - cbn [ident_keys]. by rewrite IH.
  - destruct (decide (x = y)) as [->|Hne]; [done|].
    destruct (ident_key_swap occ x y Hne) as (Hx & Hy & Ho & _).
    cbn [ident_keys]. rewrite Hx, Hy, Ho. apply perm_swap.
  - by rewrite IH1, IH2.
Qed.

(** Nor does the metadata, when no id is carried under two names. *)
Lemma ident_meta_perm ids1 ids2 :
  ids1 ≡ₚ ids2 → id_names_agree ids1 →
  ∀ occ meta, ident_meta ids1 occ meta = ident_meta ids2 occ meta.
Proof.
  induction 1 as [|x l l' _ IH|x y l|l1 l2 l3 Hp IH1 _ IH2]; intros Hag occ meta.
  - done.
  - cbn [ident_meta]. apply IH. by eapply id_names_agree_tail.
  - destruct (decide (x = y)) as [->|Hne]; [done|].
    destruct (ident_key_swap occ x y Hne) as (Hx & Hy & Ho & Hk).
    cbn [ident_meta]. rewrite Hx, Hy, Ho. f_equal.
    apply insert_insert_ne. intros Heq.
    destruct (Hk Heq) as [Hs Hs'].
    apply Hne. destruct x as [nx sx], y as [ny sy]. simpl in *. subst sy.
    f_equal. apply (Hag nx ny sx); [right; left|left|done].
  - rewrite IH1 by done. apply IH2. by eapply id_names_agree_perm.
Qed.

Lemma ident_keys_lookup_sid ids occ i id :
  ids !! i = Some id → id.2 ≠ "" →
  ident_keys ids occ !! i = Some ("sid:" +:+ id.2).
Proof.
  revert occ i. induction ids as [|x ids IH]; intros occ [|i] Hi Hs; try done.
  - simpl in Hi. injection Hi as ->. cbn [ident_keys]. unfold ident_key.
    apply nonempty_true in Hs. by rewrite Hs.
  - simpl in Hi. cbn [ident_keys]. by apply IH.
Qed.

Lemma ident_key_sid_inv occ id sid :
  (ident_key occ id).1 = "sid:" +:+ sid → id.2 = sid.
Proof.
  unfold ident_key. destruct (PyStr.nonempty id.2); cbn.
  - by intros [= H].
  - discriminate.
Qed.

(** Under the key of an id, the metadata holds that id. *)
Lemma ident_meta_sid ids occ meta sid :
  (∃ m, meta !! ("sid:" +:+ sid) = Some m ∧ m !! "student_id" = Some sid)
  ∨ (sid ≠ "" ∧ ∃ id, id ∈ ids ∧ id.2 = sid) →
  ∃ m, ident_meta ids occ meta !! ("sid:" +:+ sid) = Some m
       ∧ m !! "student_id" = Some sid.
Proof.
  revert occ meta. induction ids as [|x ids IH]; intros occ meta H.
  - destruct H as [H|(_ & id & Hin & _)]; [done|]. by apply elem_of_nil in Hin.
  - cbn [ident_meta]. apply IH.
    destruct (decide ((ident_key occ x).1 = "sid:" +:+ sid)) as [Hk|Hk].
    + left. rewrite Hk, lookup_insert_eq. eexists. split; [done|].
      apply ident_key_sid_inv in Hk. by rewrite Hk.
    + rewrite lookup_insert_ne by done.
      destruct H as [H|(Hs & id & Hin & Hid)]; [by left|].
      apply elem_of_cons in Hin as [->|Hin]; [|right; eauto].
      exfalso. apply Hk. unfold ident_key.
      apply nonempty_true in Hs. by rewrite Hid, Hs.
Qed.

(** The second loop stores a count under the key of every row. *)
Lemma count_attendance_keys has_sis cols rows occ att k :
  is_Some (att !! k) ∨ k ∈ ident_keys (row_ident has_sis <$> rows) occ →
  is_Some (count_attendance has_sis cols rows occ att !! k).
Proof.
  revert occ att. induction rows as [|row rows IH]; intros occ att H.
  - destruct H as [H|H]; [done|]. by apply elem_of_nil in H.
  - cbn [count_attendance]. rewrite row_key_ident. apply IH.
    cbn [fmap list_fmap ident_keys] in H.
    destruct (decide ((ident_key occ (row_ident has_sis row)).1 = k)) as [->|Hk].
    + left. by rewrite lookup_insert_eq.
    + rewrite lookup_insert_ne by done.
      destruct H as [H|H]; [by left|].
      apply elem_of_cons in H as [->|H]; [done|by right].
Qed.

(** ** The extractor *)

Lemma roster_sort_key_inj meta a b :
  roster_sort_key meta a = roster_sort_key meta b → a = b.
Proof. unfold roster_sort_key. by intros [= _ _ ->]. Qed.

Lemma roster_sort_perm meta l1 l2 :
  l1 ≡ₚ l2 →
  sort_by_key (roster_sort_key meta) sort_key_lt l1
  = sort_by_key (roster_sort_key meta) sort_key_lt l2.
Proof.
  apply (sort_by_key_perm (roster_sort_key meta) sort_key_cmp
           (roster_sort_key_inj meta)).
Qed.

(** What [read_canvas_gradebook_csv] returns, in terms of the ids of the
    rows it keeps. *)
Lemma read_canvas_inr df roster att meta :
  read_canvas_gradebook_csv df = inr (roster, att, meta) →
  let has_sis := bool_decide ("SIS User ID" ∈ columns df) in
  let ids := row_ident has_sis <$> df_students df in
  roster = sort_by_key (roster_sort_key meta) sort_key_lt (ident_keys ids ∅)
  ∧ meta = ident_meta ids ∅ ∅
  ∧ att = count_attendance has_sis
            (filter (λ c, attendance_col_match c = true) (columns df))
            (df_students df) ∅ ∅.
Proof.
  unfold read_canvas_gradebook_csv.
  destruct (negb _); [done|].
  destruct (filter _ (columns df)) as [|c cols] eqn:Hc; [done|].
  destruct (rows df) as [|row0 rows0] eqn:Hrows; [done|].
  rewrite assign_keys_ident. cbn [app]. by intros [= <- <- <-].
Qed.

(** C9, as the code has it.  Two frames with the same columns, both with
    rows or both without, whose kept rows carry the same (name, id) pairs
    up to order, fail alike or give the same keys; each roster is sorted
    by (last name, rest of the name, id, key); and when no id is carried
    by rows of different names, they give the same metadata and the same
    roster order. *)
Theorem read_canvas_row_order df1 df2 :
  columns df1 = columns df2 →
  (rows df1 = [] ↔ rows df2 = []) →
  let has_sis := bool_decide ("SIS User ID" ∈ columns df1) in
  row_ident has_sis <$> df_students df1 ≡ₚ row_ident has_sis <$> df_students df2 →
  match read_canvas_gradebook_csv df1, read_canvas_gradebook_csv df2 with
  | inr (r1, _, m1), inr (r2, _, m2) =>
      r1 ≡ₚ r2
      ∧ Sorted (key_le (roster_sort_key m1) sort_key_cmp) r1
      ∧ Sorted (key_le (roster_sort_key m2) sort_key_cmp) r2
      ∧ (id_names_agree (row_ident has_sis <$> df_students df1) →
         m1 = m2 ∧ r1 = r2)
  | inl e1, inl e2 => e1 = e2
  | _, _ => False
  end.
Proof.
  intros Hcols Hrows has_sis Hperm.
  destruct (read_canvas_gradebook_csv df1) as [e1|[[r1 a1] m1]] eqn:E1,
           (read_canvas_gradebook_csv df2) as [e2|[[r2 a2] m2]] eqn:E2.
  - revert E1 E2. unfold read_canvas_gradebook_csv. rewrite Hcols.
    destruct (negb _); [congruence|].
    destruct (filter _ (columns df2)); [congruence|].
    destruct (rows df1) as [|x1 l1], (rows df2) as [|x2 l2].
    + congruence.
    + discriminate (proj1 Hrows eq_refl).
    + discriminate (proj2 Hrows eq_refl).
    + by rewrite !assign_keys_ident.
  - revert E1 E2. unfold read_canvas_gradebook_csv. rewrite Hcols.
    destruct (negb _); [congruence|].
    destruct (filter _ (columns df2)); [congruence|].
    destruct (rows df1) as [|x1 l1], (rows df2) as [|x2 l2].
    + congruence.
    + discriminate (proj1 Hrows eq_refl).
    + discriminate (proj2 Hrows eq_refl).
    + by rewrite !assign_keys_ident.
  - revert E1 E2. unfold read_canvas_gradebook_csv. rewrite Hcols.
    destruct (negb _); [congruence|].
    destruct (filter _ (columns df2)); [congruence|].
    destruct (rows df1) as [|x1 l1], (rows df2) as [|x2 l2].
    + congruence.
    + discriminate (proj1 Hrows eq_refl).
    + discriminate (proj2 Hrows eq_refl).
    + by rewrite !assign_keys_ident.
  - apply read_canvas_inr in E1 as (Hr1 & Hm1 & _).
    apply read_canvas_inr in E2 as (Hr2 & Hm2 & _).
    rewrite <- Hcols in Hr2, Hm2. fold has_sis in Hr1, Hm1, Hr2, Hm2.
    split; [|split; [|split]].
    + rewrite Hr1, Hr2.
      rewrite (sort_by_key_Permutation _ sort_key_cmp).
      rewrite (sort_by_key_Permutation _ sort_key_cmp).
      by apply ident_keys_perm.
    + rewrite Hr1. apply (sort_by_key_Sorted _ sort_key_cmp).
    + rewrite Hr2. apply (sort_by_key_Sorted _ sort_key_cmp).
    + intros Hag.
      assert (m1 = m2) as <-.
      { rewrite Hm1, Hm2. by apply ident_meta_perm. }
      split; [done|]. rewrite Hr1, Hr2.
      apply roster_sort_perm. by apply ident_keys_perm.
Qed.

(** C9 as worded fails on the code: when two rows carry one id under two
    names, the name stored for the key is that of the later row, and the
    key is sorted by it. *)
Lemma read_canvas_row_order_fails :
  columns shared_id_frame = columns shared_id_frame_reordered
  ∧ rows shared_id_frame ≡ₚ rows shared_id_frame_reordered
  ∧ roster_of (read_canvas_gradebook_csv shared_id_frame)
    = Some ["sid:1"; "sid:1"; "name:Carl Yz#1"]
  ∧ roster_of (read_canvas_gradebook_csv shared_id_frame_reordered)
    = Some ["name:Carl Yz#1"; "sid:1"; "sid:1"].
Proof.
  split; [done|]. split; [apply perm_swap|].
  split; vm_compute; reflexivity.
Qed.

Lemma read_canvas_row_order_witness :
  match read_canvas_gradebook_csv small_frame,
        read_canvas_gradebook_csv small_frame_reordered with
  | inr (r1, _, m1), inr (r2, _, m2) =>
      r1 ≡ₚ r2
      ∧ Sorted (key_le (roster_sort_key m1) sort_key_cmp) r1
      ∧ Sorted (key_le (roster_sort_key m2) sort_key_cmp) r2
      ∧ (id_names_agree (row_ident true <$> df_students small_frame) →
         m1 = m2 ∧ r1 = r2)
  | inl e1, inl e2 => e1 = e2
  | _, _ => False
  end
  ∧ id_names_agree (row_ident true <$> df_students small_frame).
Proof.
  split.
  - apply (read_canvas_row_order small_frame small_frame_reordered).
    + reflexivity.
    + split; discriminate.
    + vm_compute. apply perm_swap.
  - intros n1 n2 s H1 H2 Hs. vm_compute in H1, H2.
    apply elem_of_cons in H1 as [[= -> ->]|H1];
      [|apply list_elem_of_singleton in H1 as [= -> ->]; done].
    apply elem_of_cons in H2 as [[= ->]|H2]; [done|].
    by apply list_elem_of_singleton in H2 as [= -> _].
Defined.

(** C3, as the code has it.  For a frame with an id column, a kept row
    whose normalized id [sid] is not empty gets the key [sid:] followed by
    [sid] in the first loop; that key is in the returned roster, its
    metadata holds [sid], and a count is stored under it. *)
Theorem sid_row_key df roster att meta i row sid :
  read_canvas_gradebook_csv df = inr (roster, att, meta) →
  "SIS User ID" ∈ columns df →
  df_students df !! i = Some row →
  normalize_sis (row !! "SIS User ID") = sid →
  sid ≠ "" →
  (assign_keys true (df_students df) ∅ [] ∅).1 !! i = Some ("sid:" +:+ sid)
  ∧ "sid:" +:+ sid ∈ roster
  ∧ (∃ m, meta !! ("sid:" +:+ sid) = Some m ∧ m !! "student_id" = Some sid)
  ∧ is_Some (att !! ("sid:" +:+ sid)).
Proof.
  intros Hread Hcol Hrow Hsid Hne.
  apply read_canvas_inr in Hread as (Hr & Hm & Ha).
  rewrite (bool_decide_eq_true_2 _ Hcol) in Hr, Hm, Ha.
  assert ((row_ident true <$> df_students df) !! i = Some (row_ident true row)) as Hid.
  { by rewrite list_lookup_fmap, Hrow. }
  assert ((row_ident true row).2 = sid) as Hid2 by done.
  assert (ident_keys (row_ident true <$> df_students df) ∅ !! i
          = Some ("sid:" +:+ sid)) as Hkey.
  { rewrite <- Hid2. apply ident_keys_lookup_sid; [done|by rewrite Hid2]. }
  assert ("sid:" +:+ sid ∈ ident_keys (row_ident true <$> df_students df) ∅) as Hin.
  { eapply list_elem_of_lookup_2, Hkey. }
  split; [|split; [|split]].
  - rewrite assign_keys_ident. exact Hkey.
  - rewrite Hr, (sort_by_key_Permutation _ sort_key_cmp). exact Hin.
  - rewrite Hm. apply ident_meta_sid. right. split; [done|].
    exists (row_ident true row). split; [|done].
    eapply list_elem_of_lookup_2, Hid.
  - rewrite Ha. apply count_attendance_keys. by right.
Qed.

Lemma sid_row_key_witness :
  (assign_keys true (df_students small_frame) ∅ [] ∅).1 !! 0%nat
  = Some ("sid:" +:+ "4421")
  ∧ "sid:" +:+ "4421" ∈ ["sid:4421"; "name:Carl Yz#1"]
  ∧ (∃ m, ident_meta (row_ident true <$> df_students small_frame) ∅ ∅
            !! ("sid:" +:+ "4421") = Some m
          ∧ m !! "student_id" = Some "4421")
  ∧ is_Some (count_attendance true ["1-12 (7448946)"] (df_students small_frame)
               ∅ ∅ !! ("sid:" +:+ "4421")).
Proof.
  apply (sid_row_key small_frame ["sid:4421"; "name:Carl Yz#1"]
           (count_attendance true ["1-12 (7448946)"] (df_students small_frame) ∅ ∅)
           (ident_meta (row_ident true <$> df_students small_frame) ∅ ∅)
           0%nat (<["__name__" := "Jane Doe"]> row_jane) "4421").
  - vm_compute. reflexivity.
  - compute_done.
  - vm_compute. reflexivity.
  - vm_compute. reflexivity.
  - discriminate.
Defined.

(** C3 as worded fails on the code: the key of a row with id 4421 starts
    with [sid:], not with [id:]. *)
Lemma sid_row_key_not_id :
  df_students small_frame !! 0%nat = Some (<["__name__" := "Jane Doe"]> row_jane)
  ∧ normalize_sis (row_jane !! "SIS User ID") = "4421"
  ∧ (assign_keys true (df_students small_frame) ∅ [] ∅).1 !! 0%nat
    = Some "sid:4421"
  ∧ (assign_keys true (df_students small_frame) ∅ [] ∅).1 !! 0%nat
    ≠ Some ("id:" +:+ "4421")
  ∧ roster_of (read_canvas_gradebook_csv small_frame)
    = Some ["sid:4421"; "name:Carl Yz#1"].
Proof.
  split; [vm_compute; reflexivity|]. split; [vm_compute; reflexivity|].
  split; [vm_compute; reflexivity|]. split; [|vm_compute; reflexivity].
  vm_compute. discriminate.
Qed.

(** ** The worded chain on well-formed input *)

Lemma filter_ext_Forall {A} (P Q : A → Prop) `{∀ x, Decision (P x)}
    `{∀ x, Decision (Q x)} (l : list A) :
  Forall (λ x, P x ↔ Q x) l → filter P l = filter Q l.
Proof.
  induction 1 as [|x l Hx _ IH]; [done|].
  rewrite !filter_cons, IH.
  destruct (decide (P x)), (decide (Q x)); [done|exfalso; tauto..|done].
Qed.

Lemma last_elem_of {A} (l : list A) x : last l = Some x → x ∈ l.
Proof.
  rewrite last_Some. intros [l' ->]. apply elem_of_app. right. by left.
Qed.

(** When the row has a name and the stored ids carry no surrounding
    spaces, the record the code matches is one the worded chain allows. *)
Lemma chain_match_worded (ps : odict StudentState) k nm sid :
  nm ≠ "" →
  Forall (λ p, PyStr.strip (student_id p) = student_id p) (od_values ps) →
  worded_match ps k nm sid (chain_match ps k nm sid).
Proof.
  intros Hnm Hstrip. unfold worded_match, chain_match.
  destruct (od_get ps k); [done|].
  rewrite (filter_ext_Forall (λ p, PyStr.strip (student_id p) = sid)
             (λ p, student_id p = sid)).
  2:{ eapply Forall_impl; [exact Hstrip|]. intros p Hp. simpl. by rewrite Hp. }
  apply nonempty_true in Hnm. rewrite Hnm.
  destruct (PyStr.nonempty sid) eqn:Hsid.
  - apply nonempty_true in Hsid.
    destruct (last (filter _ _)) as [p|] eqn:Hlast.
    + rewrite bool_decide_eq_true_2.
      * exists p. split; [by apply last_elem_of|done].
      * split; [done|]. intros E. by rewrite E in Hlast.
    + apply last_None in Hlast. rewrite Hlast.
      rewrite bool_decide_eq_false_2 by (by intros [_ ?]).
      by destruct (filter (λ p, name p = nm) _) as [|? [|]].
  - assert (sid = "") as -> by (by destruct sid).
    rewrite bool_decide_eq_false_2 by (by intros [? _]).
    by destruct (filter (λ p, name p = nm) _) as [|? [|]].
Qed.

(** ** The scenarios of the specification *)

(** Scenario A: one row, no id column, seven confirmed cells of ten. *)
Example scenario_a_read :
  match read_canvas_gradebook_csv scenario_a with
  | inr (roster, att, meta) =>
      roster = ["name:Jane Doe#1"]
      ∧ att !! "name:Jane Doe#1" = Some 7
      ∧ od_values (students (reconcile_state_with_csv roster att meta None None "a.csv"))
        = [mkStudentState "name:Jane Doe#1" "Jane Doe" "" false 0 "" false 7 1]
  | inl _ => False
  end.
Proof. vm_compute. done. Qed.

(** Scenario B: the id appears, the count drops to four; the record is
    matched by name and [used] is clamped. *)
Example scenario_b_reconcile :
  match read_canvas_gradebook_csv scenario_b with
  | inr (roster, att, meta) =>
      od_values (students (reconcile_state_with_csv roster att meta
                             (Some scenario_b_prior) None "b.csv"))
      = [mkStudentState "sid:4421" "Jane Doe" "4421" true 0 "" false 4 0]
  | inl _ => False
  end.
Proof. vm_compute. done. Qed.


(** * Further properties *)

(** ** The actions of the table *)

(** X1.  The actions keep the accounting bounds: on a record with
    [0 <= used <= earned], using or refunding a non-negative number of
    slips, toggling the dropped flag or editing the note leaves
    [0 <= used <= earned], and none of them touches the key, the count or
    [earned]. *)
Theorem actions_keep_bounds (r : StudentState) (n : Z) (note : option string) :
  0 ≤ used r ≤ earned r → 0 ≤ n →
  ∀ r', (do_use (Some r) n).1 = Some r' ∨ do_refund (Some r) n = Some r'
        ∨ do_toggle_drop (Some r) = Some r' ∨ do_edit_note (Some r) note = Some r' →
        0 ≤ used r' ≤ earned r'
        ∧ key r' = key r ∧ attendance_confirmed r' = attendance_confirmed r
        ∧ earned r' = earned r.
Proof.
  intros Hu Hn r' [H|[H|[H|H]]].
  - unfold do_use in H. destruct (dropped r); [by injection H as <-|].
    case_decide as Ha; injection H as <-; [done|].
    unfold available in Ha. simpl. repeat split; lia.
  - injection H as <-. simpl. repeat split; lia.
  - unfold do_toggle_drop in H. simpl in H.
    destruct (negb (dropped r)); injection H as <-; simpl; repeat split; lia.
  - unfold do_edit_note in H. destruct note; by injection H as <-.
Qed.

Lemma actions_keep_bounds_witness :
  let r := mkStudentState "sid:4421" "Jane Doe" "4421" true 1 "" false 12 2 in
  let r' := set_used r 2 in
  0 ≤ used r' ≤ earned r'
  ∧ key r' = key r ∧ attendance_confirmed r' = attendance_confirmed r
  ∧ earned r' = earned r.
Proof.
  intros r r'.
  apply (actions_keep_bounds r 1 None); [simpl; lia|lia|].
  left. reflexivity.
Defined.

(** X2.  A use that went through is undone by the refund of the same
    number, and a refund of at most [used], on a record that is not
    dropped and has [used <= earned], is undone by the use of the same
    number. *)
Theorem use_refund_inverse (r : StudentState) (n : Z) :
  (∀ r', 0 ≤ used r → do_use (Some r) n = (Some r', None) →
         do_refund (Some r') n = Some r)
  ∧ (∀ r', dropped r = false → used r ≤ earned r → 0 ≤ n ≤ used r →
           do_refund (Some r) n = Some r' →
           do_use (Some r') n = (Some r, None)).
Proof.
  split.
  - intros r' Hu H. unfold do_use in H. destruct (dropped r); [done|].
    case_decide; [done|]. injection H as <-.
    unfold do_refund, set_used; simpl. destruct r as [k nm sid t u no d a e].
    simpl in *. by replace (Z.max 0 (u + n - n)) with u by lia.
  - intros r' Hd He Hn H. injection H as <-.
    unfold do_use, available, set_used; simpl. rewrite Hd.
    rewrite decide_False by lia. destruct r as [k nm sid t u no d a e].
    simpl in *. subst d. by replace (Z.max 0 (u - n) + n) with u by lia.
Qed.

Lemma use_refund_inverse_witness :
  let r := mkStudentState "sid:4421" "Jane Doe" "4421" true 1 "" false 12 2 in
  do_refund (Some (set_used r 2)) 1 = Some r
  ∧ do_use (Some (set_used r 0)) 1 = (Some r, None).
Proof.
  intros r. split.
  - apply (proj1 (use_refund_inverse r 1)); [simpl; lia|reflexivity].
  - apply (proj2 (use_refund_inverse r 1)); [reflexivity|simpl; lia|simpl; lia|reflexivity].
Defined.

(** X3.  A refund never fails, also on a dropped record: [used] becomes
    [max 0 (used - n)], so it is never negative afterwards, and the other
    fields the user owns are untouched; on a record with [used >= 0], for
    [n >= 0], the available slips do not shrink. *)
Theorem refund_floors_at_zero (r : StudentState) (n : Z) :
  ∃ r', do_refund (Some r) n = Some r'
        ∧ used r' = Z.max 0 (used r - n) ∧ 0 ≤ used r'
        ∧ dropped r' = dropped r ∧ notes r' = notes r ∧ tracked r' = tracked r
        ∧ (0 ≤ n → 0 ≤ used r → available r ≤ available r').
Proof.
  eexists. split; [reflexivity|]. simpl. unfold available; simpl.
  repeat split; lia.
Qed.

Lemma refund_floors_at_zero_witness :
  ∃ r', do_refund (Some (mkStudentState "k" "n" "" true 1 "" true 5 1)) 3 = Some r'
        ∧ used r' = 0.
Proof.
  destruct (refund_floors_at_zero (mkStudentState "k" "n" "" true 1 "" true 5 1) 3)
    as (r' & H & Hu & _).
  exists r'. split; [exact H|]. rewrite Hu. reflexivity.
Defined.

(** X4.  Toggling the dropped flag flips it and, when the record becomes
    dropped, clamps [used] to [earned]; a dropped record refuses every
    use; and on a record with [used <= earned] toggling twice gives the
    record back. *)
Theorem toggle_drop_behaviour (r : StudentState) :
  (∃ r', do_toggle_drop (Some r) = Some r'
         ∧ dropped r' = negb (dropped r)
         ∧ used r' = (if dropped r then used r else Z.min (used r) (earned r))
         ∧ (dropped r' = true → used r' ≤ earned r'
            ∧ ∀ n, ∃ m, do_use (Some r') n = (Some r', Some m)))
  ∧ (used r ≤ earned r →
     do_toggle_drop (do_toggle_drop (Some r)) = Some r).
Proof.
  split.
  - destruct r as [k nm sid t u no [] a e]; unfold do_toggle_drop; simpl.
    + eexists. split; [reflexivity|]. simpl. by repeat split.
    + eexists. split; [reflexivity|]. simpl.
      repeat split; [lia|]. intros n. unfold do_use; simpl. eauto.
  - intros Hu. unfold do_toggle_drop. destruct r as [k nm sid t u no [] a e];
      simpl in *; unfold set_used, set_dropped; simpl; do 2 f_equal; lia.
Qed.

Lemma toggle_drop_behaviour_witness :
  let r := mkStudentState "sid:4421" "Jane Doe" "4421" true 1 "" false 12 2 in
  do_toggle_drop (do_toggle_drop (Some r)) = Some r.
Proof.
  intros r. apply (proj2 (toggle_drop_behaviour r)). simpl. lia.
Defined.

(** ** The shape of a reconciled state *)

Section odict_keys.
Context {V : Type}.
Implicit Types (d : odict V) (k : string) (v : V) (f : string → V).

Lemma od_set_keys_elem d k v k' :
  k' ∈ od_keys (od_set d k v) ↔ k' = k ∨ k' ∈ od_keys d.
Proof.
  unfold od_keys. induction d as [|[k0 v0] d IH]; simpl.
  - rewrite list_elem_of_singleton, elem_of_nil. tauto.
  - destruct (decide (k0 = k)) as [->|Hne]; simpl.
    + rewrite !elem_of_cons. tauto.
    + rewrite !elem_of_cons, IH. tauto.
Qed.

Lemma od_set_keys_NoDup d k v : NoDup (od_keys d) → NoDup (od_keys (od_set d k v)).
Proof.
  unfold od_keys. induction d as [|[k0 v0] d IH]; simpl; intros Hnd.
  - apply NoDup_singleton.
  - apply NoDup_cons in Hnd as [Hk0 Hnd].
    destruct (decide (k0 = k)) as [->|Hne]; simpl.
    + by apply NoDup_cons.
    + apply NoDup_cons. split; [|by apply IH].
      intros Hin. apply (od_set_keys_elem d k v k0) in Hin as [?|?]; done.
Qed.

Lemma od_fill_keys_elem f l d k :
  k ∈ od_keys (od_fill f l d) ↔ k ∈ l ∨ k ∈ od_keys d.
Proof.
  unfold od_fill. revert d. induction l as [|k0 l IH]; intros d; cbn [foldl].
  - rewrite elem_of_nil. tauto.
  - rewrite IH, od_set_keys_elem, elem_of_cons. tauto.
Qed.

Lemma od_fill_keys_NoDup f l d :
  NoDup (od_keys d) → NoDup (od_keys (od_fill f l d)).
Proof.
  unfold od_fill. revert d. induction l as [|k0 l IH]; intros d Hd; cbn [foldl].
  - done.
  - by apply IH, od_set_keys_NoDup.
Qed.

Lemma od_get_Some_elem d k v : od_get d k = Some v → (k, v) ∈ d.
Proof.
  induction d as [|[k0 v0] d IH]; simpl; [done|].
  destruct (decide (k0 = k)) as [->|Hne].
  - intros [= ->]. by left.
  - intros H. right. by apply IH.
Qed.

Lemma od_get_fmap {W} (g : V → W) d k :
  od_get ((λ e, (e.1, g e.2)) <$> d) k = g <$> od_get d k.
Proof.
  induction d as [|[k0 v0] d IH]; simpl; [done|].
  by destruct (decide (k0 = k)).
Qed.

Lemma od_keys_fmap {W} (g : V → W) d :
  od_keys ((λ e, (e.1, g e.2)) <$> d) = od_keys d.
Proof.
  unfold od_keys. rewrite <- list_fmap_compose. by apply list_fmap_ext.
Qed.
End odict_keys.

(** X5.  The state returned by reconciliation holds the roster as given
    and the snapshot name; it has exactly one record for each key of the
    roster and none for any other key; and in every record the key, the
    name, the id, the count and [earned] come from the snapshot: nothing
    of these is taken from the prior state. *)
Theorem reconcile_structure roster att meta prior sel csv :
  let S := reconcile_state_with_csv roster att meta prior sel csv in
  roster_keys_in_order S = roster
  ∧ last_csv_name S = csv
  ∧ NoDup (od_keys (students S))
  ∧ (∀ k, k ∈ od_keys (students S) ↔ k ∈ roster)
  ∧ Forall (λ e, key e.2 = e.1
                 ∧ name e.2 = meta_field (meta !! e.1) "name"
                 ∧ student_id e.2 = meta_field (meta !! e.1) "student_id"
                 ∧ attendance_confirmed e.2 = default 0 (att !! e.1)
                 ∧ earned e.2 = default 0 (att !! e.1) `div` 5) (students S).
Proof.
  intros S. subst S. rewrite reconcile_students_eq.
  split; [|split; [|split; [|split]]].
  - unfold reconcile_state_with_csv. by destruct (index_prior _).
  - unfold reconcile_state_with_csv. by destruct (index_prior _).
  - apply od_fill_keys_NoDup. constructor.
  - intros k. rewrite od_fill_keys_elem. unfold od_keys; simpl.
    rewrite elem_of_nil. tauto.
  - set (P := λ (k : string) (st : StudentState),
                key st = k
                ∧ name st = meta_field (meta !! k) "name"
                ∧ student_id st = meta_field (meta !! k) "student_id"
                ∧ attendance_confirmed st = default 0 (att !! k)
                ∧ earned st = default 0 (att !! k) `div` 5).
    apply (od_fill_Forall P); [constructor|]. intros k _. by repeat split.
Qed.

(** X6.  A roster key that the prior state holds keeps what the user
    entered: the notes and the dropped flag as they were, [used] as it was
    unless it exceeds the new [earned], and the tracked flag unless a
    selection was supplied. *)
Theorem reconcile_keeps_adjustments roster att meta prior sel csv k p :
  k ∈ roster → od_get (students_of prior) k = Some p →
  ∃ st, od_get (students (reconcile_state_with_csv roster att meta prior sel csv)) k
        = Some st
        ∧ notes st = notes p ∧ dropped st = dropped p
        ∧ used st = Z.min (used p) (earned st)
        ∧ tracked st = match sel with
                       | Some s => bool_decide (k ∈ s)
                       | None => tracked p
                       end.
Proof.
  intros Hk Hp. rewrite reconcile_students_eq, od_fill_get, decide_True by done.
  eexists. split; [reflexivity|].
  unfold reconcile_student, find_prev. rewrite Hp.
  unfold build_student; simpl. repeat split. case_decide; lia.
Qed.

Lemma reconcile_keeps_adjustments_witness :
  ∃ st, od_get (students (reconcile_state_with_csv ["sid:4421"] {["sid:4421" := 3]} ∅
                            (Some sample_state) None "week5.csv")) "sid:4421"
        = Some st
        ∧ notes st = "late" ∧ dropped st = false ∧ used st = 0 ∧ tracked st = true.
Proof.
  destruct (reconcile_keeps_adjustments ["sid:4421"] {["sid:4421" := 3]} ∅
              (Some sample_state) None "week5.csv" "sid:4421"
              (mkStudentState "sid:4421" "Ann Lee" "4421" true 1 "late" false 7 1))
    as (st & Hst & Hn & Hd & Hu & Ht); [by left|reflexivity|].
  exists st. split; [exact Hst|]. split; [exact Hn|]. split; [exact Hd|].
  split; [|exact Ht]. rewrite Hu.
  injection Hst as <-. reflexivity.
Defined.

(** ** Reading the save file *)

Lemma load_students_not_object items acc k v :
  (k, v) ∈ items → (∀ o, v ≠ JObj o) → ∀ d, load_students items acc ≠ Ok d.
Proof.
  intros Hin Hv. revert acc.
  induction items as [|[k0 v0] items IH]; intros acc d.
  - by apply elem_of_nil in Hin.
  - cbn [load_students].
    destruct (load_student k0 v0) as [[key' st]| |] eqn:E;
      cbn [mbind outcome_bind]; [|done..].
    apply elem_of_cons in Hin as [[= <- <-]|Hin]; [|by apply IH].
    exfalso. unfold load_student, py_get in E.
    destruct v; cbn [mbind outcome_bind] in E; try discriminate.
    by eapply Hv.
Qed.

(** X7.  Without a save file there is no prior state, and this is no
    error.  A file that is not JSON, a JSON value that is not an object,
    and a file in which some student entry is not an object never yield a
    state: the first two raise. *)
Theorem load_save_failures :
  load_save NoFile = Ok None
  ∧ load_save BadText = Raise
  ∧ (∀ data, (∀ o, data ≠ JObj o) → load_save (JsonText data) = Raise)
  ∧ (∀ top items k v,
       default (JObj []) (od_get top "students") = JObj items →
       (k, v) ∈ items → (∀ o, v ≠ JObj o) →
       ∀ s, load_save (JsonText (JObj top)) ≠ Ok s).
Proof.
  split; [done|]. split; [done|]. split.
  - intros data Hd. destruct data; try done. by destruct (Hd o).
  - intros top items k v Hs Hin Hv s. unfold load_save, py_get.
    cbn [mbind outcome_bind].
    destruct (py_list _); cbn [mbind outcome_bind]; [|done..].
    destruct (py_str _); cbn [mbind outcome_bind]; [|done..].
    rewrite Hs.
    destruct (load_students items []) as [d| |] eqn:E;
      cbn [mbind outcome_bind]; [|done..].
    by destruct (load_students_not_object items [] k v Hin Hv d).
Qed.

Lemma load_save_failures_witness :
  load_save (JsonText (JArr [])) = Raise
  ∧ ∀ s, load_save (JsonText (JObj [("students", JObj [("Ann Lee", JInt 3)])]))
         ≠ Ok s.
Proof.
  destruct load_save_failures as (_ & _ & H3 & H4). split.
  - apply H3. discriminate.
  - apply (H4 _ [("Ann Lee", JInt 3)] "Ann Lee" (JInt 3));
      [reflexivity|by left|discriminate].
Defined.

(** X8.  A record object without a [key] field gets the key that the
    extractor gives to the first row of that name and id: [sid:] and the
    stripped id when there is one, else [name:], the name under which the
    object is stored and [#1]; the name defaults to that name as well. *)
Theorem load_student_legacy_key nm o sid :
  record_typed o = true →
  od_get o "key" = None →
  py_str (default (JStr "") (od_get o "student_id")) = Ok sid →
  ∃ st, load_student nm (JObj o)
        = Ok ((ident_key ∅ (nm, PyStr.strip sid)).1, st)
        ∧ key st = (ident_key ∅ (nm, PyStr.strip sid)).1
        ∧ student_id st = sid
        ∧ (od_get o "name" = None → name st = nm).
Proof.
  intros Ht Hk Hsid. revert Ht. unfold record_typed. rewrite !andb_true_iff.
  intros ((((_ & Hn) & _) & Ho) & Hu).
  destruct (py_str_able _ (field_ok_default _ _ _ (JStr nm) Hn eq_refl)) as [sn Esn].
  destruct (py_str_able _ (field_ok_default _ _ _ (JStr "") Ho eq_refl)) as [so Eso].
  destruct (py_int_able _ (field_ok_default _ _ _ (JInt 0) Hu eq_refl)) as [nu Enu].
  unfold load_student, py_get. cbn [mbind outcome_bind].
  rewrite Hk. cbn [default py_str mbind outcome_bind PyStr.nonempty].
  rewrite Hsid. cbn [mbind outcome_bind]. unfold ident_key. cbn [fst snd].
  destruct (PyStr.nonempty (PyStr.strip sid)); cbn [mbind outcome_bind fst].
  - rewrite Esn. cbn [mbind outcome_bind]. rewrite Enu. cbn [mbind outcome_bind].
    rewrite Eso. cbn [mbind outcome_bind]. eexists. split; [reflexivity|].
    cbn. repeat split. intros E. rewrite E in Esn. by injection Esn.
  - rewrite Esn. cbn [mbind outcome_bind]. rewrite Enu. cbn [mbind outcome_bind].
    rewrite Eso. cbn [mbind outcome_bind]. eexists. split; [reflexivity|].
    cbn. repeat split. intros E. rewrite E in Esn. by injection Esn.
Qed.

Lemma load_student_legacy_key_witness :
  (∃ st, load_student "Ann Lee" (JObj [("student_id", JStr " 4421 ")])
         = Ok ("sid:4421", st) ∧ name st = "Ann Lee")
  ∧ (∃ st, load_student "Jane Doe" (JObj [("used", JInt 1)])
           = Ok ("name:Jane Doe#1", st) ∧ name st = "Jane Doe").
Proof.
  split.
  - destruct (load_student_legacy_key "Ann Lee" [("student_id", JStr " 4421 ")]
                " 4421 " eq_refl eq_refl eq_refl) as (st & H & _ & _ & Hn).
    exists st. split; [exact H|exact (Hn eq_refl)].
  - destruct (load_student_legacy_key "Jane Doe" [("used", JInt 1)]
                "" eq_refl eq_refl eq_refl) as (st & H & _ & _ & Hn).
    exists st. split; [exact H|exact (Hn eq_refl)].
Defined.

Lemma load_student_key k v key' st :
  load_student k v = Ok (key', st) →
  key st = key' ∧ attendance_confirmed st = 0 ∧ earned st = 0.
Proof.
  unfold load_student. intros H.
  repeat match type of H with
         | (?m ≫= _) = Ok _ =>
             let E := fresh "E" in
             destruct m eqn:E; cbn [mbind outcome_bind] in H; [|discriminate..]
         end.
  by injection H as <- <-.
Qed.

Lemma load_students_invariant items acc d :
  load_students items acc = Ok d →
  NoDup (od_keys acc) →
  Forall (λ e, key e.2 = e.1 ∧ attendance_confirmed e.2 = 0 ∧ earned e.2 = 0) acc →
  NoDup (od_keys d)
  ∧ Forall (λ e, key e.2 = e.1 ∧ attendance_confirmed e.2 = 0 ∧ earned e.2 = 0) d.
Proof.
  revert acc. induction items as [|[k v] items IH]; intros acc H Hnd Hacc.
  - by injection H as <-.
  - cbn [load_students] in H.
    destruct (load_student k v) as [[key' st]| |] eqn:E;
      cbn [mbind outcome_bind] in H; [|done..].
    apply load_student_key in E. apply (IH _ H).
    + by apply od_set_keys_NoDup.
    + by apply (od_set_Forall
                  (λ k st, key st = k ∧ attendance_confirmed st = 0 ∧ earned st = 0)).
Qed.

(** X9.  In every state that [load_save] returns, each record sits under
    its own key, no key occurs twice, and the count and [earned] are 0
    until reconciliation fills them in. *)
Theorem load_save_invariant f st :
  load_save f = Ok (Some st) →
  NoDup (od_keys (students st))
  ∧ Forall (λ e, key e.2 = e.1 ∧ attendance_confirmed e.2 = 0 ∧ earned e.2 = 0)
      (students st).
Proof.
  destruct f as [| |data]; [by intros [=]..|].
  destruct data as [| | | | |top]; try (by intros [=]).
  unfold load_save, py_get. cbn [mbind outcome_bind].
  destruct (py_list _); cbn [mbind outcome_bind]; [|by intros [=]..].
  destruct (py_str _); cbn [mbind outcome_bind]; [|by intros [=]..].
  destruct (default (JObj []) (od_get top "students")) as [| | | | |items];
    try (by intros [=]).
  destruct (load_students items []) as [d| |] eqn:E;
    cbn [mbind outcome_bind]; [|by intros [=]..].
  intros [= <-]. cbn [students].
  apply (load_students_invariant items [] d E); constructor.
Qed.

Lemma load_save_invariant_witness :
  ∃ st, load_save (JsonText legacy_file) = Ok (Some st)
        ∧ NoDup (od_keys (students st))
        ∧ Forall (λ e, key e.2 = e.1 ∧ attendance_confirmed e.2 = 0 ∧ earned e.2 = 0)
            (students st).
Proof.
  eexists. split; [reflexivity|].
  apply (load_save_invariant (JsonText legacy_file)). reflexivity.
Defined.

(** ** Starting again from the save file *)

Lemma ident_key_nonempty occ id : (ident_key occ id).1 ≠ "".
Proof. unfold ident_key. by destruct (PyStr.nonempty id.2). Qed.

Lemma ident_keys_nonempty ids occ k : k ∈ ident_keys ids occ → k ≠ "".
Proof.
  revert occ. induction ids as [|id ids IH]; intros occ; cbn [ident_keys].
  - by intros ?%elem_of_nil.
  - intros [->|Hin]%elem_of_cons; [apply ident_key_nonempty|by eapply IH].
Qed.

Lemma read_canvas_keys_nonempty df roster att meta k :
  read_canvas_gradebook_csv df = inr (roster, att, meta) → k ∈ roster → k ≠ "".
Proof.
  intros (Hr & _ & _)%read_canvas_inr Hk. rewrite Hr in Hk.
  rewrite (sort_by_key_Permutation _ sort_key_cmp) in Hk.
  by eapply ident_keys_nonempty.
Qed.

Lemma load_save_saved (state : SaveState) :
  NoDup (od_keys (students state)) →
  Forall (λ e, key e.2 = e.1 ∧ e.1 ≠ "") (students state) →
  load_save (save_state state)
  = Ok (Some (mkSaveState (roster_keys_in_order state)
                ((λ e, (e.1, persisted e.2)) <$> students state)
                (last_csv_name state))).
Proof.
  intros Hnd Hkeys. unfold save_state.
  rewrite (load_save_shape _ (roster_keys_in_order state) (last_csv_name state)
             ((λ e, (e.1, student_payload e.2)) <$> students state)).
  - by rewrite load_students_payload.
  - apply all_strings_JStr.
  - reflexivity.
  - change (default (JObj []) (od_get _ "students"))
      with (JObj (foldl (λ d '(key, st), od_set d key (student_payload st))
                    [] (students state))).
    by rewrite students_payload.
Qed.

Lemma build_student_persisted att sel k nm sid prev :
  build_student att None k nm sid
    (Some (persisted (build_student att sel k nm sid prev)))
  = build_student att sel k nm sid prev.
Proof.
  unfold build_student, persisted; simpl.
  destruct sel, prev; simpl; repeat case_decide; try done; try lia.
Qed.

(** Reconciling against what the save file gives back. *)
Lemma reconcile_after_persist roster att meta prior sel csv r' l' csv' :
  let S := reconcile_state_with_csv roster att meta prior sel csv in
  reconcile_state_with_csv roster att meta
    (Some (mkSaveState r' ((λ e, (e.1, persisted e.2)) <$> students S) l'))
    None csv'
  = mkSaveState roster (students S) csv'.
Proof.
  intros S. subst S. unfold reconcile_state_with_csv at 1.
  destruct (index_prior _) as [bs' bn']. cbn [students_of students].
  f_equal. rewrite reconcile_students_eq.
  apply (od_fill_ext
           (reconcile_student att meta
              ((λ e, (e.1, persisted e.2)) <$>
                 od_fill (reconcile_student att meta (students_of prior)
                            (index_prior (students_of prior)).1
                            (index_prior (students_of prior)).2 sel) roster [])
              bs' bn' None)).
  intros k Hk. unfold reconcile_student at 1. unfold find_prev.
  rewrite od_get_fmap, od_fill_get, decide_True by done. cbn [fmap option_fmap option_map].
  apply build_student_persisted.
Qed.

Lemma reconcile_saved_loads roster att meta prior sel csv :
  (∀ k, k ∈ roster → k ≠ "") →
  let S := reconcile_state_with_csv roster att meta prior sel csv in
  load_save (save_state S)
  = Ok (Some (mkSaveState roster ((λ e, (e.1, persisted e.2)) <$> students S) csv)).
Proof.
  intros Hne S.
  assert (roster_keys_in_order S = roster ∧ last_csv_name S = csv) as [Hr Hl].
  { subst S. unfold reconcile_state_with_csv. by destruct (index_prior _). }
  rewrite <- Hr at 1. rewrite <- Hl. apply load_save_saved.
  - subst S. rewrite reconcile_students_eq. apply od_fill_keys_NoDup. constructor.
  - subst S. rewrite reconcile_students_eq.
    apply (od_fill_Forall (λ k st, key st = k ∧ k ≠ "")); [constructor|].
    intros k Hk. split; [done|by apply Hne].
Qed.

(** X10.  Starting again is stable: when [load_or_init_state] has
    returned a state and written it to the save file, running it again on
    the same CSV with that save file returns the same state, whatever the
    dialog would answer (it is not shown), and writes nothing.  The roster
    must not be empty: for an empty roster the dialog is shown again. *)
Theorem restart_keeps_state gui df f csv S w :
  load_or_init_state gui df f csv = InitState S (Some w) →
  roster_keys_in_order S ≠ [] →
  ∀ gui', load_or_init_state gui' df w csv = InitState S None.
Proof.
  unfold load_or_init_state.
  destruct (read_canvas_gradebook_csv df) as [e|[[roster att] meta]] eqn:Hread;
    [done|].
  assert (∀ k, k ∈ roster → k ≠ "") as Hne.
  { intros k. by eapply read_canvas_keys_nonempty. }
  assert (∀ prior sel,
            let S := reconcile_state_with_csv roster att meta prior sel csv in
            roster_keys_in_order S ≠ [] →
            ∀ gui',
              match load_save (save_state S) with
              | Raise => InitSystemExit
              | Unmodelled => InitUnmodelled
              | Ok None =>
                  match gui' (roster_items roster meta) with
                  | None => InitCancelled
                  | Some sel =>
                      let state :=
                        reconcile_state_with_csv roster att meta None (Some sel) csv in
                      InitState state (Some (save_state state))
                  end
              | Ok (Some prior) =>
                  let roster_same :=
                    match roster_keys_in_order prior with
                    | [] => false
                    | _ => bool_decide (roster_keys_in_order prior = roster)
                    end in
                  let selected_tracked :=
                    if roster_same then None else gui' (roster_items roster meta) in
                  let state :=
                    reconcile_state_with_csv roster att meta (Some prior)
                      selected_tracked csv in
                  InitState state
                    (match selected_tracked with
                     | Some _ => Some (save_state state)
                     | None => None
                     end)
              end = InitState S None) as Hagain.
  { intros prior sel S0 Hr gui'.
    assert (roster_keys_in_order S0 = roster) as Hr0.
    { subst S0. unfold reconcile_state_with_csv. by destruct (index_prior _). }
    rewrite Hr0 in Hr. subst S0.
    rewrite (reconcile_saved_loads _ _ _ _ _ _ Hne).
    cbn [roster_keys_in_order].
    destruct roster as [|k0 roster']; [done|].
    rewrite bool_decide_eq_true_2 by done. cbv zeta.
    rewrite reconcile_after_persist. f_equal.
    unfold reconcile_state_with_csv. by destruct (index_prior _). }
  destruct (load_save f) as [[prior|]| |]; [| |done..].
  - cbv zeta.
    destruct (match roster_keys_in_order prior with
              | [] => false
              | _ => bool_decide (roster_keys_in_order prior = roster)
              end); [done|].
    destruct (gui (roster_items roster meta)) as [sel|]; [|done].
    intros [= <- <-] Hr gui'. by apply Hagain.
  - destruct (gui (roster_items roster meta)) as [sel|]; [|done].
    cbv zeta. intros [= <- <-] Hr gui'. by apply Hagain.
Qed.

Lemma restart_keeps_state_witness :
  ∃ S w,
    load_or_init_state (λ _, Some {["sid:4421"]}) small_frame NoFile "week4.csv"
    = InitState S (Some w)
    ∧ ∀ gui', load_or_init_state gui' small_frame w "week4.csv" = InitState S None.
Proof.
  assert (∃ S w,
            load_or_init_state (λ _, Some {["sid:4421"]}) small_frame NoFile
              "week4.csv" = InitState S (Some w)
            ∧ roster_keys_in_order S ≠ []) as (S & w & E & Hr).
  { eexists _, _. split; [vm_compute; reflexivity|]. discriminate. }
  exists S, w. split; [exact E|].
  exact (restart_keeps_state _ small_frame NoFile "week4.csv" S w E Hr).
Defined.

(** ** What the extractor returns *)

Lemma filter_none (l : list string) (p : string → bool) :
  Forall (λ c, p c = false) l → filter (λ c, p c = true) l = [].
Proof.
  induction 1 as [|c l Hc _ IH]; [done|].
  rewrite filter_cons_False by congruence. exact IH.
Qed.

Lemma read_canvas_returns (df : DataFrame) :
  "Student" ∈ columns df →
  Exists (λ c, attendance_col_match c = true) (columns df) →
  rows df ≠ [] →
  ∃ roster att meta, read_canvas_gradebook_csv df = inr (roster, att, meta).
Proof.
  unfold read_canvas_gradebook_csv.
  intros H Hex Hrows. rewrite bool_decide_eq_true_2 by done. cbn [negb].
  destruct (filter _ (columns df)) as [|c cols] eqn:Hf.
  - exfalso. apply Exists_exists in Hex as (c & Hin & Hc).
    assert (c ∈ filter (λ c, attendance_col_match c = true) (columns df)) as Hin'
      by (by apply list_elem_of_filter).
    rewrite Hf in Hin'. by apply elem_of_nil in Hin'.
  - destruct (rows df); [done|]. destruct (assign_keys _ _ _ _ _). eauto.
Qed.

Lemma small_frame_returns :
  ∃ roster att meta, read_canvas_gradebook_csv small_frame = inr (roster, att, meta).
Proof.
  apply read_canvas_returns; [compute_done| |discriminate].
  do 2 apply Exists_cons_tl. by apply Exists_cons_hd.
Qed.

(** X11.  [read_canvas_gradebook_csv] raises the first [ValueError] when
    there is no [Student] column, the second when there is one but no
    column header has the form of an attendance date, a [KeyError] when
    both are there but the frame has no rows, and returns in every other
    case, also when no row is kept. *)
Theorem read_canvas_errors (df : DataFrame) :
  ("Student" ∉ columns df →
   read_canvas_gradebook_csv df = inl MissingStudentColumn)
  ∧ ("Student" ∈ columns df →
     Forall (λ c, attendance_col_match c = false) (columns df) →
     read_canvas_gradebook_csv df = inl NoAttendanceColumns)
  ∧ ("Student" ∈ columns df →
     Exists (λ c, attendance_col_match c = true) (columns df) →
     (rows df = [] → read_canvas_gradebook_csv df = inl StudentKeyError)
     ∧ (rows df ≠ [] →
        ∃ roster att meta,
          read_canvas_gradebook_csv df = inr (roster, att, meta)
          ∧ (df_students df = [] → roster = []))).
Proof.
  split; [|split].
  - intros H. unfold read_canvas_gradebook_csv. by rewrite bool_decide_eq_false_2.
  - intros H Hall. unfold read_canvas_gradebook_csv.
    rewrite bool_decide_eq_true_2 by done. cbn [negb]. by rewrite filter_none.
  - intros H Hex. split.
    + intros Hrows. unfold read_canvas_gradebook_csv.
      rewrite bool_decide_eq_true_2 by done. cbn [negb].
      destruct (filter _ (columns df)) as [|c cols] eqn:Hf.
      * exfalso. apply Exists_exists in Hex as (c & Hin & Hc).
        assert (c ∈ filter (λ c, attendance_col_match c = true) (columns df))
          as Hin' by (by apply list_elem_of_filter).
        rewrite Hf in Hin'. by apply elem_of_nil in Hin'.
      * by rewrite Hrows.
    + intros Hrows.
      destruct (read_canvas_returns df H Hex Hrows) as (r & a & m & E).
      exists r, a, m. split; [exact E|]. intros Hnone.
      apply read_canvas_inr in E as (Hr & _ & _).
      rewrite Hr, Hnone. reflexivity.
Qed.

Lemma read_canvas_errors_witness :
  read_canvas_gradebook_csv (mkDataFrame ["Name"; "1-12 (7448946)"] [])
  = inl MissingStudentColumn
  ∧ read_canvas_gradebook_csv (mkDataFrame ["Student"; "SIS User ID"] [])
    = inl NoAttendanceColumns
  ∧ read_canvas_gradebook_csv (mkDataFrame sample_columns []) = inl StudentKeyError
  ∧ ∃ roster att meta,
      read_canvas_gradebook_csv
        (mkDataFrame sample_columns [sample_row "Points Possible" "nan" "1.00"])
      = inr (roster, att, meta) ∧ roster = [].
Proof.
  split; [|split; [|split]].
  - apply (proj1 (read_canvas_errors _)). compute_done.
  - apply (proj1 (proj2 (read_canvas_errors _))); [compute_done|].
    repeat constructor.
  - apply (proj2 (proj2 (read_canvas_errors (mkDataFrame sample_columns []))));
      [compute_done| |reflexivity].
    do 2 apply Exists_cons_tl. by apply Exists_cons_hd.
  - destruct (proj2 (proj2 (read_canvas_errors
                (mkDataFrame sample_columns
                   [sample_row "Points Possible" "nan" "1.00"])))) as [_ H];
      [compute_done| |].
    { do 2 apply Exists_cons_tl. by apply Exists_cons_hd. }
    destruct (H ltac:(discriminate)) as (r & a & m & E & Hr).
    exists r, a, m. split; [exact E|]. apply Hr. vm_compute. reflexivity.
Defined.

Lemma ident_keys_length ids occ : length (ident_keys ids occ) = length ids.
Proof.
  revert occ. induction ids as [|id ids IH]; intros occ; [done|].
  cbn [ident_keys length]. by rewrite IH.
Qed.

Lemma ident_meta_dom ids occ (meta : gmap string (gmap string string)) k :
  is_Some (ident_meta ids occ meta !! k)
  ↔ is_Some (meta !! k) ∨ k ∈ ident_keys ids occ.
Proof.
  revert occ meta. induction ids as [|id ids IH]; intros occ meta;
    cbn [ident_meta ident_keys].
  - rewrite elem_of_nil. tauto.
  - rewrite IH, elem_of_cons.
    destruct (decide ((ident_key occ id).1 = k)) as [->|Hne].
    + rewrite lookup_insert_eq. split; [tauto|]. intros _. left. eauto.
    + rewrite lookup_insert_ne by done.
      split; [tauto|]. intros [?|[?|?]]; [tauto|congruence|tauto].
Qed.

Lemma ident_meta_fields ids occ (meta : gmap string (gmap string string)) k m :
  ident_meta ids occ meta !! k = Some m →
  (∀ m0, meta !! k = Some m0 →
         is_Some (m0 !! "name") ∧ is_Some (m0 !! "student_id")) →
  is_Some (m !! "name") ∧ is_Some (m !! "student_id").
Proof.
  revert occ meta. induction ids as [|id ids IH]; intros occ meta;
    cbn [ident_meta]; [eauto|].
  intros Hm Hmeta. apply (IH _ _ Hm). intros m0.
  destruct (decide ((ident_key occ id).1 = k)) as [->|Hne].
  - rewrite lookup_insert_eq. intros [= <-]. split; eexists; reflexivity.
  - rewrite lookup_insert_ne by done. apply Hmeta.
Qed.

Lemma count_attendance_dom has_sis cols rows occ (att : gmap string Z) k :
  is_Some (count_attendance has_sis cols rows occ att !! k)
  ↔ is_Some (att !! k) ∨ k ∈ ident_keys (row_ident has_sis <$> rows) occ.
Proof.
  revert occ att. induction rows as [|row rows IH]; intros occ att.
  - cbn [count_attendance fmap list_fmap ident_keys]. rewrite elem_of_nil. tauto.
  - cbn [count_attendance fmap list_fmap ident_keys].
    rewrite row_key_ident, IH, elem_of_cons.
    change (list_fmap _ _ ?f rows) with (f <$> rows).
    destruct (decide ((ident_key occ (row_ident has_sis row)).1 = k)) as [->|Hne].
    + rewrite lookup_insert_eq. split; [tauto|]. intros _. left. eauto.
    + rewrite lookup_insert_ne by done.
      split; [tauto|]. intros [?|[?|?]]; [tauto|congruence|tauto].
Qed.

Lemma count_cells_bounds (row : gmap string string) (cols : list string) c0 :
  let c := foldl (λ count col,
                    match row !! col with
                    | None => count
                    | Some cell =>
                        if bool_decide (PyStr.strip cell ∈ CONFIRMED_ATTENDANCE_VALUES)
                        then count + 1 else count
                    end) c0 cols in
  c0 ≤ c ≤ c0 + Z.of_nat (length cols).
Proof.
  revert c0. induction cols as [|col cols IH]; intros c0; cbn [foldl length].
  - lia.
  - cbv zeta in IH.
    match goal with |- context [foldl ?f ?a cols] => specialize (IH a) end.
    destruct (row !! col) as [cell|]; [|lia].
    destruct (bool_decide _); lia.
Qed.

Lemma count_attendance_bounds has_sis cols rows occ (att : gmap string Z) k c :
  count_attendance has_sis cols rows occ att !! k = Some c →
  (∀ c0, att !! k = Some c0 → 0 ≤ c0 ≤ Z.of_nat (length cols)) →
  0 ≤ c ≤ Z.of_nat (length cols).
Proof.
  revert occ att. induction rows as [|row rows IH]; intros occ att;
    cbn [count_attendance]; [eauto|].
  rewrite row_key_ident. intros Hc Hatt. apply (IH _ _ Hc). intros c0.
  destruct (decide ((ident_key occ (row_ident has_sis row)).1 = k)) as [->|Hne].
  - rewrite lookup_insert_eq. intros [= <-].
    pose proof (count_cells_bounds row cols 0) as Hb. cbv zeta in Hb. lia.
  - rewrite lookup_insert_ne by done. apply Hatt.
Qed.

(** X12.  What the extractor returns fits together: the roster has one
    entry for each kept row, and a key has metadata exactly when it is in
    the roster, and a count exactly when it is in the roster; every
    metadata entry has both a name and an id field. *)
Theorem read_canvas_consistent df roster att meta :
  read_canvas_gradebook_csv df = inr (roster, att, meta) →
  length roster = length (df_students df)
  ∧ (∀ k, k ∈ roster ↔ is_Some (meta !! k))
  ∧ (∀ k, k ∈ roster ↔ is_Some (att !! k))
  ∧ (∀ k m, meta !! k = Some m →
            is_Some (m !! "name") ∧ is_Some (m !! "student_id")).
Proof.
  intros (Hr & Hm & Ha)%read_canvas_inr.
  assert (∀ k, k ∈ roster
               ↔ k ∈ ident_keys (row_ident (bool_decide ("SIS User ID" ∈ columns df))
                                   <$> df_students df) ∅) as Hin.
  { intros k. by rewrite Hr, (sort_by_key_Permutation _ sort_key_cmp). }
  split; [|split; [|split]].
  - rewrite Hr, (sort_by_key_Permutation _ sort_key_cmp), ident_keys_length.
    by rewrite length_fmap.
  - intros k. rewrite Hin, Hm, ident_meta_dom, lookup_empty.
    split; [tauto|]. by intros [[? [=]]|?].
  - intros k. rewrite Hin, Ha, count_attendance_dom, lookup_empty.
    split; [tauto|]. by intros [[? [=]]|?].
  - intros k m Hk. rewrite Hm in Hk. apply (ident_meta_fields _ _ _ _ _ Hk).
    intros m0. by rewrite lookup_empty.
Qed.

Lemma read_canvas_consistent_witness :
  ∃ roster att meta,
    read_canvas_gradebook_csv small_frame = inr (roster, att, meta)
    ∧ length roster = length (df_students small_frame)
    ∧ (∀ k, k ∈ roster ↔ is_Some (meta !! k))
    ∧ (∀ k, k ∈ roster ↔ is_Some (att !! k)).
Proof.
  destruct small_frame_returns as (r & a & m & E).
  exists r, a, m. split; [exact E|].
  destruct (read_canvas_consistent small_frame r a m E) as (H1 & H2 & H3 & _).
  split; [exact H1|]. split; [exact H2|exact H3].
Defined.

(** X13.  The count of a key is never negative and never more than the
    number of attendance columns. *)
Theorem read_canvas_count_bounds df roster att meta k c :
  read_canvas_gradebook_csv df = inr (roster, att, meta) →
  att !! k = Some c →
  0 ≤ c ≤ Z.of_nat (length (filter (λ h, attendance_col_match h = true) (columns df))).
Proof.
  intros (_ & _ & Ha)%read_canvas_inr Hc. rewrite Ha in Hc.
  apply (count_attendance_bounds _ _ _ _ _ _ _ Hc).
  intros c0. by rewrite lookup_empty.
Qed.

Lemma read_canvas_count_bounds_witness :
  ∃ roster att meta,
    read_canvas_gradebook_csv scenario_a = inr (roster, att, meta)
    ∧ att !! "name:Jane Doe#1" = Some 7
    ∧ 0 ≤ 7 ≤ Z.of_nat (length (filter (λ h, attendance_col_match h = true)
                                   (columns scenario_a))).
Proof.
  assert (∃ r a m, read_canvas_gradebook_csv scenario_a = inr (r, a, m)
                   ∧ a !! "name:Jane Doe#1" = Some 7) as (r & a & m & E & Hc).
  { eexists _, _, _. split; vm_compute; reflexivity. }
  exists r, a, m. split; [exact E|]. split; [exact Hc|].
  exact (read_canvas_count_bounds scenario_a r a m _ 7 E Hc).
Defined.
